(** * JUnit test generator: the request/response pipeline of
    [junit_test_generator.py]

    A shallow embedding of the class [JUnitTestGenerator]: Python's [str]
    as a list of code points, the string builtins the program calls
    ([in], [split], [strip], [endswith]), the worker [call_openai_api] in
    a state-and-exception monad, and the Tk callbacks as transitions of an
    application state. *)

From Stdlib Require Import Ascii String DecimalString.
From Stdlib Require Import NArith ZArith Bool Lia List.
Import ListNotations.

Set Warnings "-register-all".

(** ** Python strings *)

(** A [str] is a sequence of Unicode code points. *)
Definition pystr := list N.

(** The program text's ASCII literals. *)
Definition str (s : string) : pystr := map N_of_ascii (list_ascii_of_string s).
Arguments str s%_string.

Definition nl : pystr := [10%N].

(** [a == b]. *)
Fixpoint str_eqb (a b : pystr) : bool :=
  match a, b with
  | [], [] => true
  | x :: a', y :: b' => N.eqb x y && str_eqb a' b'
  | _, _ => false
  end.

(** [s.startswith(p)]. *)
Fixpoint startswith (p s : pystr) : bool :=
  match p, s with
  | [], _ => true
  | _ :: _, [] => false
  | a :: p', b :: s' => N.eqb a b && startswith p' s'
  end.

(** [s.endswith(p)]. *)
Definition endswith (s p : pystr) : bool :=
  startswith p (skipn (length s - length p) s) && (length p <=? length s)%nat.

(** [s.find(sub)]: the lowest index at which [sub] occurs, [None] for
    Python's -1. *)
Fixpoint find (sub s : pystr) : option nat :=
  if startswith sub s then Some 0
  else match s with
       | [] => None
       | _ :: s' => option_map S (find sub s')
       end.

(** [sub in s]. *)
Definition contains (sub s : pystr) : bool :=
  match find sub s with Some _ => true | None => false end.

(** [s.split(sep)] for a non-empty [sep]: cut at each occurrence, found
    from the left, the search resuming after the separator.  The first
    argument bounds the number of cuts; [length s] is enough
    ([split_n_enough]). *)
Fixpoint split_n (n : nat) (sep s : pystr) : list pystr :=
  match find sep s with
  | None => [s]
  | Some i =>
      match n with
      | O => [s]
      | S n' => firstn i s :: split_n n' sep (skipn (i + length sep) s)
      end
  end.

Definition split (s sep : pystr) : list pystr := split_n (length s) sep s.

(** [c.isspace()], the characters [strip()] removes: Unicode's White_Space
    and the four ASCII separators 0x1C..0x1F. *)
Definition isspace (c : N) : bool :=
  ((9 <=? c) && (c <=? 13) || (28 <=? c) && (c <=? 32)
   || (c =? 133) || (c =? 160) || (c =? 5760)
   || (8192 <=? c) && (c <=? 8202)
   || (c =? 8232) || (c =? 8233) || (c =? 8239) || (c =? 8287)
   || (c =? 12288))%N.

Fixpoint lstrip (s : pystr) : pystr :=
  match s with
  | c :: s' => if isspace c then lstrip s' else s
  | [] => []
  end.

Definition rstrip (s : pystr) : pystr := rev (lstrip (rev s)).

(** [s.strip()]. *)
Definition strip (s : pystr) : pystr := rstrip (lstrip s).

(** [str(n)] for an [int]. *)
Definition str_of_int (n : Z) : pystr := str (NilZero.string_of_int (Z.to_int n)).

(** ** Exceptions *)

(** The exception classes the worker can meet; all derive from
    [Exception].  [RequestException] stands for the transport failures
    [requests.post] raises (connection refused, DNS, TLS, timeout), and
    [JSONDecodeError] for what [response.json()] raises on a body that is
    not JSON. *)
Inductive pyexn : Type :=
| RequestException (detail : pystr)
| JSONDecodeError (detail : pystr)
| KeyError (key : pystr)
| KeyErrorInt (key : Z)
| IndexError
| TypeError
| AttributeError
| OSError (detail : pystr).

Inductive result (A : Type) : Type :=
| Return (a : A)
| Raise (e : pyexn).
Arguments Return {A} a.
Arguments Raise {A} e.

(** [l[i]] on a list, for a non-negative literal index. *)
Definition getitem {A : Type} (l : list A) (i : nat) : result A :=
  match nth_error l i with
  | Some a => Return a
  | None => Raise IndexError
  end.

(** ** Extraction of the code block (lines 129-136) *)

Definition fence : pystr := str "```".
Definition java_fence : pystr := str "```java".

(**
<<
    if "```java" in test_code:
        test_code = test_code.split("```java")[1]
        if "```" in test_code:
            test_code = test_code.split("```")[0]
    ... test_code.strip()
>> *)
Definition extract (test_code : pystr) : result pystr :=
  match
    (if contains java_fence test_code then
       match getitem (split test_code java_fence) 1 with
       | Return test_code =>
           if contains fence test_code then getitem (split test_code fence) 0
           else Return test_code
       | Raise e => Raise e
       end
     else Return test_code)
  with
  | Return test_code => Return (strip test_code)
  | Raise e => Raise e
  end.

(** The two-marker scan of the specification: from the first opening
    marker to the first fence delimiter after it. *)
Definition extract_by_scan (raw : pystr) : pystr :=
  match find java_fence raw with
  | None => strip raw
  | Some i =>
      let rest := skipn (i + length java_fence) raw in
      match find fence rest with
      | None => strip rest
      | Some q => strip (firstn q rest)
      end
  end.

(** The piece [split("```java")[1]] keeps: the text after the first
    opening marker, up to the next opening marker if there is one. *)
Definition up_to_next_marker (rest : pystr) : pystr :=
  match find java_fence rest with
  | None => rest
  | Some p => firstn p rest
  end.

(** The piece [split("```")[0]] keeps of it. *)
Definition up_to_fence (part : pystr) : pystr :=
  match find fence part with
  | None => part
  | Some q => firstn q part
  end.

(** ** The prompt (lines 164-215) *)

Definition unlines (ls : list pystr) : pystr :=
  concat (map (fun l => l ++ nl) ls).

(** The lines of the f-string before the interpolated [{java_code}]. *)
Definition prompt_lines_before : list pystr :=
  [ str "[Context]";
    str "I'm adding JUnit tests to an existing test class. I need comprehensive test methods for the following Java class.";
    str "";
    str "[Reference Documentation]";
    str "Follow JUnit 5 best practices including:";
    str "- @Test, @BeforeEach, @AfterEach annotations";
    str "- Assertions from org.junit.jupiter.api.Assertions";
    str "- Mockito for dependency mocking";
    str "- Parameterized tests for multiple input combinations";
    str "- Exception testing with assertThrows()";
    str "";
    str "[Specific Task]";
    str "Analyze the Java class below and generate exhaustive JUnit 5 test methods (not the entire class) that achieve maximum code coverage.";
    str "";
    str "[Technical Requirements]";
    str "1. Generate ONLY the test methods (no class declaration, imports, or package statements)";
    str "2. Include test methods for ALL public methods";
    str "3. Test ALL possible execution paths through each method";
    str "4. Generate tests for the following scenarios for each method:";
    str "   - Normal/expected inputs with correct results";
    str "   - Edge cases (empty collections, null inputs, boundary values)";
    str "   - Invalid inputs that should trigger exceptions";
    str "   - All conditional branches (if/else, switch statements)";
    str "   - For methods with loops, test: empty iterations, single iteration, multiple iterations";
    str "5. For methods with dependencies:";
    str "   - Assume mocks are already properly set up in the test class";
    str "   - Set up mock behavior for different test scenarios";
    str "   - Verify mock interactions where appropriate";
    str "6. For methods with complex inputs:";
    str "   - Create parameterized tests (@ParameterizedTest) with multiple combinations";
    str "   - Test boundary conditions for numeric inputs";
    str "   - Test empty, single-element, and multi-element collections";
    str "7. Include private helper methods for test setup when needed";
    str "";
    str "[Desired Output Format]";
    str "- Organize tests by method, with clear method naming: test[MethodName][Scenario]";
    str "- Include descriptive Javadoc comments for each test method explaining what is being tested";
    str "- Group related tests using nested test classes (@Nested) when appropriate";
    str "- Include appropriate assertions for each test case";
    str "- Assume all necessary imports are already present";
    str "- Format code according to standard Java conventions";
    str "";
    str "[Java Class to Test]";
    str "```java" ].

(** The lines after it. *)
Definition prompt_lines_after : list pystr :=
  [ str "```";
    str "";
    str "Please generate ONLY the test methods following this structure. Do not include class declaration, imports, or package statements. Assume the test class and all necessary imports already exist." ].

(** The literal opens with a line break, and one follows [{java_code}]. *)
Definition prompt_head : pystr := nl ++ unlines prompt_lines_before.
Definition prompt_tail : pystr := nl ++ unlines prompt_lines_after.

Definition create_prompt (java_code : pystr) : pystr :=
  prompt_head ++ java_code ++ prompt_tail.

(** ** JSON values and the HTTP exchange *)

(** What [json.dumps] takes and [response.json()] returns.  A float is
    kept as the decimal [mantissa * 10 ^ exponent] of its literal; a
    [dict] is the list of its items, keys being strings as in JSON. *)
Inductive pyvalue : Type :=
| PyNone
| PyBool (b : bool)
| PyInt (n : Z)
| PyFloat (mantissa exponent : Z)
| PyStr (s : pystr)
| PyList (l : list pyvalue)
| PyDict (items : list (pystr * pyvalue)).

Fixpoint dict_get (key : pystr) (items : list (pystr * pyvalue)) : option pyvalue :=
  match items with
  | [] => None
  | (k, v) :: items' => if str_eqb k key then Some v else dict_get key items'
  end.

(** [v[key]] for a string key: a [dict] looks the key up, every other
    type refuses a string subscript. *)
Definition subscript_key (v : pyvalue) (key : pystr) : result pyvalue :=
  match v with
  | PyDict items =>
      match dict_get key items with
      | Some x => Return x
      | None => Raise (KeyError key)
      end
  | _ => Raise TypeError
  end.

(** [v[i]] for a non-negative integer literal: a list or a string is
    indexed, a [dict] from JSON has no integer key, the other types are
    not subscriptable. *)
Definition subscript_index (v : pyvalue) (i : nat) : result pyvalue :=
  match v with
  | PyList l => getitem l i
  | PyStr s =>
      match getitem s i with
      | Return c => Return (PyStr [c])
      | Raise e => Raise e
      end
  | PyDict _ => Raise (KeyErrorInt (Z.of_nat i))
  | _ => Raise TypeError
  end.

(** [response_json['choices'][0]['message']['content']] (line 127). *)
Definition first_choice_content (response_json : pyvalue) : result pyvalue :=
  match subscript_key response_json (str "choices") with
  | Raise e => Raise e
  | Return choices =>
      match subscript_index choices 0 with
      | Raise e => Raise e
      | Return choice =>
          match subscript_key choice (str "message") with
          | Raise e => Raise e
          | Return message => subscript_key message (str "content")
          end
      end
  end.

(** Lines 129-136 on whatever [content] holds.  On a list or a dict the
    membership tests succeed and the missing [split] or [strip] method
    raises; [None], a boolean and a number are no containers for [in]. *)
Definition extract_value (test_code : pyvalue) : result pystr :=
  match test_code with
  | PyStr s => extract s
  | PyList _ | PyDict _ => Raise AttributeError
  | PyNone | PyBool _ | PyInt _ | PyFloat _ _ => Raise TypeError
  end.

(** The arguments of [requests.post]; [data] is the payload that
    [json.dumps] serialises. *)
Record request : Type := {
  url : pystr;
  headers : list (pystr * pystr);
  data : pyvalue
}.

(** The [Response] object: [json] is the outcome of [response.json()]. *)
Record response : Type := {
  status_code : Z;
  text : pystr;
  json : result pyvalue
}.

(** The remote endpoint and the transport, as seen from [requests.post]:
    a response, or a raised [RequestException]. *)
Definition network := request -> result response.

(** The file system, as seen from [os.path.exists] and [open(...).read()]. *)
Record filesystem : Type := {
  path_exists : pystr -> bool;
  read_text : pystr -> result pystr
}.

(** ** The application state *)

Inductive tk_state : Type := NORMAL | DISABLED.

(** What [root.after] queues: the two deliveries of the worker (lines
    136, 139 and 142) and the status reset of [copy_to_clipboard]. *)
Inductive callback : Type :=
| update_ui_with_result_cb (test_code : pystr)
| show_error_cb (error_message : pystr)
| status_ready_cb.

(** The widgets of [setup_ui].  [output_text] holds the text of the
    scrolled text widget without the final line break Tk keeps after it. *)
Record widgets : Type := {
  path_entry : pystr;
  generate_button : tk_state;
  status_label : pystr;
  output_text : pystr;
  copy_button : tk_state
}.

(** [self], with what it acts on: the running worker threads (their
    arguments), the callbacks queued by [root.after], the clipboard behind
    [pyperclip], the error boxes shown and the requests sent. *)
Record app : Type := {
  api_key : pystr;
  ui : widgets;
  threads : list (pystr * pystr);
  after_queue : list callback;
  clipboard : pystr;
  dialogs : list (pystr * pystr);
  posted : list request
}.

Definition with_ui (f : widgets -> widgets) (a : app) : app :=
  {| api_key := api_key a; ui := f (ui a); threads := threads a;
     after_queue := after_queue a; clipboard := clipboard a;
     dialogs := dialogs a; posted := posted a |}.

Definition with_threads (f : list (pystr * pystr) -> list (pystr * pystr)) (a : app) : app :=
  {| api_key := api_key a; ui := ui a; threads := f (threads a);
     after_queue := after_queue a; clipboard := clipboard a;
     dialogs := dialogs a; posted := posted a |}.

Definition with_after_queue (f : list callback -> list callback) (a : app) : app :=
  {| api_key := api_key a; ui := ui a; threads := threads a;
     after_queue := f (after_queue a); clipboard := clipboard a;
     dialogs := dialogs a; posted := posted a |}.

Definition with_clipboard (s : pystr) (a : app) : app :=
  {| api_key := api_key a; ui := ui a; threads := threads a;
     after_queue := after_queue a; clipboard := s;
     dialogs := dialogs a; posted := posted a |}.

Definition with_dialogs (f : list (pystr * pystr) -> list (pystr * pystr)) (a : app) : app :=
  {| api_key := api_key a; ui := ui a; threads := threads a;
     after_queue := after_queue a; clipboard := clipboard a;
     dialogs := f (dialogs a); posted := posted a |}.

Definition with_posted (f : list request -> list request) (a : app) : app :=
  {| api_key := api_key a; ui := ui a; threads := threads a;
     after_queue := after_queue a; clipboard := clipboard a;
     dialogs := dialogs a; posted := f (posted a) |}.

Definition set_generate_button (st : tk_state) (w : widgets) : widgets :=
  {| path_entry := path_entry w; generate_button := st;
     status_label := status_label w; output_text := output_text w;
     copy_button := copy_button w |}.

Definition set_copy_button (st : tk_state) (w : widgets) : widgets :=
  {| path_entry := path_entry w; generate_button := generate_button w;
     status_label := status_label w; output_text := output_text w;
     copy_button := st |}.

Definition set_status_label (s : pystr) (w : widgets) : widgets :=
  {| path_entry := path_entry w; generate_button := generate_button w;
     status_label := s; output_text := output_text w;
     copy_button := copy_button w |}.

Definition set_output_text (s : pystr) (w : widgets) : widgets :=
  {| path_entry := path_entry w; generate_button := generate_button w;
     status_label := status_label w; output_text := s;
     copy_button := copy_button w |}.

Definition set_path_entry (s : pystr) (w : widgets) : widgets :=
  {| path_entry := s; generate_button := generate_button w;
     status_label := status_label w; output_text := output_text w;
     copy_button := copy_button w |}.

(** ** Statements: state passing with exceptions *)

(** A statement runs on [self] and returns or raises; what it changed
    before raising stays changed. *)
Definition M (A : Type) : Type := app -> result A * app.

Definition ret {A : Type} (a : A) : M A := fun s => (Return a, s).

Definition bind {A B : Type} (m : M A) (k : A -> M B) : M B :=
  fun s =>
    match m s with
    | (Return a, s') => k a s'
    | (Raise e, s') => (Raise e, s')
    end.

Definition lift {A : Type} (r : result A) : M A := fun s => (r, s).

Definition gets {A : Type} (f : app -> A) : M A := fun s => (Return (f s), s).

Definition modify (f : app -> app) : M unit := fun s => (Return tt, f s).

(** [try: body except Exception as e: handler e]. *)
Definition try_except {A : Type} (body : M A) (handler : pyexn -> M A) : M A :=
  fun s =>
    match body s with
    | (Return a, s') => (Return a, s')
    | (Raise e, s') => handler e s'
    end.

Definition exec {A : Type} (m : M A) (s : app) : app := snd (m s).

Declare Scope stmt_scope.
Delimit Scope stmt_scope with stmt.
Notation "x <- m ;; k" := (bind m (fun x => k))
  (at level 61, m at next level, right associativity) : stmt_scope.
Notation "m ;; k" := (bind m (fun _ => k))
  (at level 61, right associativity) : stmt_scope.
Local Open Scope stmt_scope.

(** *** The Tk, pyperclip and requests calls *)

(** Python's truth value of a string. *)
Definition truthy (s : pystr) : bool :=
  match s with [] => false | _ :: _ => true end.

(** [widget.config(state=...)] and [widget.config(text=...)]. *)
Definition config (f : widgets -> widgets) : M unit := modify (with_ui f).

(** [self.output_text.delete(1.0, tk.END)]. *)
Definition output_text_delete : M unit := config (set_output_text []).

(** [self.output_text.insert(tk.END, s)]. *)
Definition output_text_insert (s : pystr) : M unit :=
  config (fun w => set_output_text (output_text w ++ s) w).

(** [self.output_text.get(1.0, tk.END)]: the range ends after the line
    break that closes the widget's text, so the break is part of it. *)
Definition output_text_get : M pystr :=
  gets (fun a => output_text (ui a) ++ nl).

Definition messagebox_showerror (title message : pystr) : M unit :=
  modify (with_dialogs (fun d => d ++ [(title, message)])).

(** [self.root.after(ms, callback, *args)]. *)
Definition root_after (cb : callback) : M unit :=
  modify (with_after_queue (fun q => q ++ [cb])).

Definition pyperclip_copy (s : pystr) : M unit := modify (with_clipboard s).

(** The output area is an editable text widget (line 53): the user can
    type, delete, paste and cut in it; [edit] is what the keys make of
    its text. *)
Definition edit_output (edit : pystr -> pystr) : M unit :=
  config (fun w => set_output_text (edit (output_text w)) w).

(** Tk's own copy binding on the text widget: the selection, [count]
    characters from [first] on, goes to the clipboard; an empty selection
    leaves the clipboard alone.  The selection can reach the line break
    that closes the text. *)
Definition copy_selection (first count : nat) : M unit :=
  fun a =>
    let selection := firstn count (skipn first (output_text (ui a) ++ nl)) in
    if truthy selection then (Return tt, with_clipboard selection a)
    else (Return tt, a).

(** [requests.post(url, headers=..., data=json.dumps(payload))]. *)
Definition requests_post (net : network) (u : pystr)
    (h : list (pystr * pystr)) (payload : pyvalue) : M response :=
  fun s =>
    let req := {| url := u; headers := h; data := payload |} in
    (net req, with_posted (fun l => l ++ [req]) s).

(** [threading.Thread(target=self.call_openai_api, args=...).start()]. *)
Definition thread_start (args : pystr * pystr) : M unit :=
  modify (with_threads (fun l => l ++ [args])).

Fixpoint remove_nth {A : Type} (i : nat) (l : list A) : list A :=
  match i, l with
  | _, [] => []
  | O, _ :: l' => l'
  | S i', x :: l' => x :: remove_nth i' l'
  end.

Definition chat_completions_url : pystr :=
  str "https://api.openai.com/v1/chat/completions".

Definition system_content : pystr :=
  str "You are an expert Java developer specializing in JUnit test creation.".

(** ** The methods of [JUnitTestGenerator] *)

Section Methods.

(** [str(e)]: the interpreter's wording of an exception. *)
Variable str_of_exn : pyexn -> pystr.

(** Lines 61-67. *)
Definition read_java_file (fs : filesystem) (file_path : pystr) : M (option pystr) :=
  try_except
    (content <- lift (read_text fs file_path) ;; ret (Some content))
    (fun e =>
       messagebox_showerror (str "Error")
         (str "Failed to read file: " ++ str_of_exn e) ;;
       ret None).

(** Lines 144-149. *)
Definition update_ui_with_result (test_code : pystr) : M unit :=
  output_text_delete ;;
  output_text_insert test_code ;;
  config (set_generate_button NORMAL) ;;
  config (set_copy_button NORMAL) ;;
  config (set_status_label (str "Tests generated successfully!")).

(** Lines 151-156. *)
Definition show_error (error_message : pystr) : M unit :=
  output_text_delete ;;
  output_text_insert error_message ;;
  config (set_generate_button NORMAL) ;;
  config (set_copy_button DISABLED) ;;
  config (set_status_label (str "Error occurred")).

(** Lines 158-162. *)
Definition copy_to_clipboard : M unit :=
  test_code <- output_text_get ;;
  pyperclip_copy test_code ;;
  config (set_status_label (str "Copied to clipboard!")) ;;
  root_after status_ready_cb.

(** The main loop running a queued callback. *)
Definition run_callback (cb : callback) : M unit :=
  match cb with
  | update_ui_with_result_cb test_code => update_ui_with_result test_code
  | show_error_cb error_message => show_error error_message
  | status_ready_cb => config (set_status_label (str "Ready"))
  end.

Definition fire (i : nat) : M unit :=
  fun a =>
    match nth_error (after_queue a) i with
    | Some cb => run_callback cb (with_after_queue (remove_nth i) a)
    | None => (Return tt, a)
    end.

(** What [self.root.update()] can find pending at line 93: queued
    callbacks that are due, keys typed into the path entry or into the
    output area, and a copy of the selection in the output area.  Both
    buttons are disabled by then (lines 90 and 91), and Tk drops the
    presses of a disabled button. *)
Inductive idle_event : Type :=
| Due (i : nat)
| Typed (path : pystr)
| TypedOutput (edit : pystr -> pystr)
| CopiedSelection (first count : nat).

Fixpoint root_update (pending : list idle_event) : M unit :=
  match pending with
  | [] => ret tt
  | Due i :: rest => fire i ;; root_update rest
  | Typed path :: rest => config (set_path_entry path) ;; root_update rest
  | TypedOutput edit :: rest => edit_output edit ;; root_update rest
  | CopiedSelection first count :: rest =>
      copy_selection first count ;; root_update rest
  end.

(** Lines 69-98. *)
Definition generate_tests (fs : filesystem) (pending : list idle_event) : M unit :=
  file_path <- gets (fun a => strip (path_entry (ui a))) ;;
  if negb (truthy file_path) then
    messagebox_showerror (str "Error") (str "Please provide a valid file path")
  else if negb (path_exists fs file_path) then
    messagebox_showerror (str "Error") (str "File not found: " ++ file_path)
  else if negb (endswith file_path (str ".java")) then
    messagebox_showerror (str "Error") (str "The file must be a Java file (.java)")
  else
    java_code <- read_java_file fs file_path ;;
    match java_code with
    | None => ret tt
    | Some java_code =>
        if negb (truthy java_code) then ret tt
        else
          output_text_delete ;;
          config (set_generate_button DISABLED) ;;
          config (set_copy_button DISABLED) ;;
          config (set_status_label (str "Generating tests...")) ;;
          root_update pending ;;
          thread_start (java_code, file_path)
    end.

(** The payload of lines 109-117. *)
Definition payload_of (prompt : pystr) : pyvalue :=
  PyDict
    [ (str "model", PyStr (str "gpt-4o"));
      (str "messages",
       PyList
         [ PyDict [ (str "role", PyStr (str "system"));
                    (str "content", PyStr system_content) ];
           PyDict [ (str "role", PyStr (str "user"));
                    (str "content", PyStr prompt) ] ]);
      (str "temperature", PyFloat 3 (-1));
      (str "max_tokens", PyInt 4000) ].

(** Lines 100-142. *)
Definition call_openai_api (net : network) (java_code file_path : pystr) : M unit :=
  try_except
    (let prompt := create_prompt java_code in
     key <- gets api_key ;;
     let headers :=
       [ (str "Content-Type", str "application/json");
         (str "Authorization", str "Bearer " ++ key) ] in
     let payload := payload_of prompt in
     response <- requests_post net chat_completions_url headers payload ;;
     if (status_code response =? 200)%Z then
       response_json <- lift (json response) ;;
       test_code <- lift (first_choice_content response_json) ;;
       test_code <- lift (extract_value test_code) ;;
       root_after (update_ui_with_result_cb test_code)
     else
       let error_message :=
         str "API Error: " ++ str_of_int (status_code response) ++ nl
         ++ text response in
       root_after (show_error_cb error_message))
    (fun e => root_after (show_error_cb (str "Error: " ++ str_of_exn e))).

(** The request of lines 104-123, for the key held by [self]. *)
Definition request_for (key java_code : pystr) : request :=
  {| url := chat_completions_url;
     headers := [ (str "Content-Type", str "application/json");
                  (str "Authorization", str "Bearer " ++ key) ];
     data := payload_of (create_prompt java_code) |}.

(** The state the worker leaves: the request logged, one callback queued. *)
Definition after_worker (a : app) (java_code : pystr) (cb : callback) : app :=
  with_after_queue (fun q => q ++ [cb])
    (with_posted (fun l => l ++ [request_for (api_key a) java_code]) a).

(** The program has no type of error kinds: what kind of failure a
    message reports shows in the label it opens with, [API Error: ] at
    line 138 and [Error: ] at line 142. *)
Definition labelled_api_error (error_message : pystr) : bool :=
  startswith (str "API Error: ") error_message.

(** The callback the worker queues for an outcome of the exchange:
    [call_openai_api] read branch by branch ([call_openai_api_eq]). *)
Definition delivery_for (outcome : result response) : callback :=
  let failed e := show_error_cb (str "Error: " ++ str_of_exn e) in
  match outcome with
  | Raise e => failed e
  | Return r =>
      if (status_code r =? 200)%Z then
        match json r with
        | Raise e => failed e
        | Return response_json =>
            match first_choice_content response_json with
            | Raise e => failed e
            | Return content =>
                match extract_value content with
                | Raise e => failed e
                | Return test_code => update_ui_with_result_cb test_code
                end
            end
        end
      else
        show_error_cb
          (str "API Error: " ++ str_of_int (status_code r) ++ nl ++ text r)
  end.

(** A Tk button runs its command when pressed, unless it is disabled. *)
Definition press (st : tk_state) (command : M unit) : M unit :=
  match st with
  | NORMAL => command
  | DISABLED => ret tt
  end.

(** ** The event loop *)

(** What happens to the application: the user types a path, presses one
    of the two buttons (the press of Generate comes with the answers of
    the file system and with what [root.update()] finds pending), a worker
    thread runs to its end against the network, the main loop runs a
    queued callback, the user edits the text of the output area or copies
    a selection of it with Tk's own binding. *)
Inductive event : Type :=
| TypePath (path : pystr)
| PressGenerate (fs : filesystem) (pending : list idle_event)
| PressCopy
| WorkerRuns (i : nat) (net : network)
| Fires (i : nat)
| EditOutput (edit : pystr -> pystr)
| CopySelection (first count : nat).

Definition step (a : app) (e : event) : app :=
  match e with
  | TypePath path => exec (config (set_path_entry path)) a
  | PressGenerate fs pending =>
      exec (press (generate_button (ui a)) (generate_tests fs pending)) a
  | PressCopy => exec (press (copy_button (ui a)) copy_to_clipboard) a
  | WorkerRuns i net =>
      match nth_error (threads a) i with
      | Some (java_code, file_path) =>
          exec (call_openai_api net java_code file_path)
               (with_threads (remove_nth i) a)
      | None => a
      end
  | Fires i => exec (fire i) a
  | EditOutput edit => exec (edit_output edit) a
  | CopySelection first count => exec (copy_selection first count) a
  end.

Definition run (a : app) (es : list event) : app := fold_left step es a.

(** The state [__init__] leaves (lines 15-26, 28-59), for the key found
    in the environment. *)
Definition initial (key : pystr) : app :=
  {| api_key := key;
     ui := {| path_entry := []; generate_button := NORMAL;
              status_label := str "Ready"; output_text := [];
              copy_button := DISABLED |};
     threads := []; after_queue := []; clipboard := [];
     dialogs := []; posted := [] |}.

Definition reachable (a : app) : Prop :=
  exists key es, a = run (initial key) es.

(** ** The dispatcher of the specification, read off the state *)

Inductive dispatcher_state : Type := Idle | Running.

(** The one flag the program keeps is the state of the Generate button. *)
Definition dispatcher (a : app) : dispatcher_state :=
  match generate_button (ui a) with
  | NORMAL => Idle
  | DISABLED => Running
  end.

Definition is_delivery (cb : callback) : bool :=
  match cb with
  | update_ui_with_result_cb _ | show_error_cb _ => true
  | status_ready_cb => false
  end.

(** Generations in flight: workers running, and results queued for the
    main loop. *)
Definition in_flight (a : app) : nat :=
  length (threads a) + length (filter is_delivery (after_queue a)).

(** What holds between two events: with Generate enabled nothing is in
    flight; with Generate disabled one generation is, and Copy is
    disabled. *)
Definition invariant (a : app) : Prop :=
  match generate_button (ui a) with
  | NORMAL => in_flight a = 0
  | DISABLED => in_flight a = 1 /\ copy_button (ui a) = DISABLED
  end.

(** No result waits in the queue. *)
Definition quiet (a : app) : Prop := filter is_delivery (after_queue a) = [].

(** [self] after lines 89-92 of [generate_tests]. *)
Definition started (a : app) : app :=
  with_ui (set_status_label (str "Generating tests..."))
    (with_ui (set_copy_button DISABLED)
       (with_ui (set_generate_button DISABLED)
          (with_ui (set_output_text []) a))).

(** Two states with the same threads, buttons and requests sent. *)
Definition same_controls (a a' : app) : Prop :=
  threads a' = threads a
  /\ generate_button (ui a') = generate_button (ui a)
  /\ copy_button (ui a') = copy_button (ui a)
  /\ posted a' = posted a.

(** What the keys that [root.update()] finds typed into the output area
    make of its text. *)
Fixpoint typed_text (pending : list idle_event) (shown : pystr) : pystr :=
  match pending with
  | [] => shown
  | TypedOutput edit :: rest => typed_text rest (edit shown)
  | _ :: rest => typed_text rest shown
  end.

(** [self] with another text in the output area and another state of
    the Copy button. *)
Definition redisplay (shown : pystr) (st : tk_state) (a : app) : app :=
  with_ui (fun w => set_copy_button st (set_output_text shown w)) a.

End Methods.

(** ** Concrete surroundings, to run the program *)

(** One wording of [str(e)]. *)
Definition plain_str_of_exn (e : pyexn) : pystr :=
  match e with
  | RequestException detail | JSONDecodeError detail | OSError detail => detail
  | KeyError key => str "'" ++ key ++ str "'"
  | KeyErrorInt key => str_of_int key
  | IndexError => str "list index out of range"
  | TypeError => str "object is not subscriptable"
  | AttributeError => str "object has no attribute"
  end.

(** A file system where every path exists and reads as one Java class. *)
Definition foo_fs : filesystem :=
  {| path_exists := fun _ => true;
     read_text := fun _ => Return (str "class Foo {}") |}.

(** A 200 response whose first choice carries [content]. *)
Definition chat_response (content : pystr) : response :=
  {| status_code := 200;
     text := [];
     json :=
       Return
         (PyDict
            [ (str "choices",
               PyList
                 [ PyDict
                     [ (str "message",
                        PyDict [ (str "role", PyStr (str "assistant"));
                                 (str "content", PyStr content) ]) ] ]) ]) |}.

Definition answering (r : response) : network := fun _ => Return r.

Definition unreachable_network : network :=
  fun _ => Raise (RequestException (str "Connection refused")).

(** A 200 response whose body is not JSON. *)
Definition not_json : response :=
  {| status_code := 200;
     text := str "<html>";
     json := Raise (JSONDecodeError (str "Expecting value")) |}.

Definition server_error : response :=
  {| status_code := 500;
     text := str "server error";
     json := Raise (JSONDecodeError (str "Expecting value")) |}.

(** File systems for the refusals: no file at all, a file that cannot
    be read, an empty file. *)
Definition bare_fs : filesystem :=
  {| path_exists := fun _ => false;
     read_text := fun _ => Raise (OSError (str "No such file or directory")) |}.

Definition locked_fs : filesystem :=
  {| path_exists := fun _ => true;
     read_text := fun _ => Raise (OSError (str "Permission denied")) |}.

Definition empty_fs : filesystem :=
  {| path_exists := fun _ => true; read_text := fun _ => Return [] |}.

(** The user types a path and presses Generate. *)
Definition one_start : list event :=
  [ TypePath (str "Foo.java"); PressGenerate foo_fs [] ].

(** ** Startup (lines 15-26) *)

(** [__init__] builds the window, then reads the key: without one it
    shows an error box, destroys the window and exits with status 1. *)
Inductive startup : Type :=
| Started (self : app)
| Exited (box : pystr * pystr) (status : Z).

(** [getenv] is what [os.getenv("OPENAI_API_KEY")] returns. *)
Definition init (getenv : option pystr) : startup :=
  let no_key :=
    Exited (str "Error",
            str "OpenAI API key not found. Please set the OPENAI_API_KEY environment variable.")
           1 in
  match getenv with
  | Some key => if truthy key then Started (initial key) else no_key
  | None => no_key
  end.

(** [self] after [messagebox.showerror("Error", message)]. *)
Definition error_box (message : pystr) (a : app) : app :=
  with_dialogs (fun d => d ++ [(str "Error", message)]) a.

(** ** Measures of a run *)

Definition is_press_generate (e : event) : bool :=
  match e with PressGenerate _ _ => true | _ => false end.






(** What the requests sent and the threads at work are made of, for the
    key [key]: each request is the one built from a non-empty source. *)
Definition well_keyed (key : pystr) (a : app) : Prop :=
  api_key a = key
  /\ (forall req, In req (posted a) ->
      exists java_code, truthy java_code = true /\ req = request_for key java_code)
  /\ (forall java_code file_path, In (java_code, file_path) (threads a) ->
      truthy java_code = true).

(** * Properties *)

(** ** Occurrences of a substring *)

Lemma startswith_app (p t : pystr) : startswith p (p ++ t) = true.
Proof.
  induction p as [|a p IH]; simpl; [reflexivity|].
  rewrite N.eqb_refl. exact IH.
Qed.

Lemma startswith_inv (p s : pystr) :
  startswith p s = true -> exists t, s = p ++ t.
Proof.
  revert s; induction p as [|a p IH]; intros s H.
  - exists s; reflexivity.
  - destruct s as [|b s]; simpl in H; [discriminate|].
    apply andb_true_iff in H as [Hab Hps].
    apply N.eqb_eq in Hab; subst b.
    destruct (IH _ Hps) as [t ->]. exists t; reflexivity.
Qed.

Lemma startswith_length (p s : pystr) :
  startswith p s = true -> length p <= length s.
Proof.
  intros H. destruct (startswith_inv _ _ H) as [t ->].
  rewrite length_app. lia.
Qed.

Lemma startswith_prefix (p q s : pystr) :
  startswith (p ++ q) s = true -> startswith p s = true.
Proof.
  intros H. destruct (startswith_inv _ _ H) as [t ->].
  rewrite <- app_assoc. apply startswith_app.
Qed.

(** A prefix of [firstn k t] is a prefix of [t] that fits in [k]. *)
Lemma startswith_firstn (p t : pystr) (k : nat) :
  startswith p (firstn k t) = startswith p t && (length p <=? k).
Proof.
  revert t k; induction p as [|a p IH]; intros t k; [reflexivity|].
  destruct k as [|k]; destruct t as [|b t]; simpl; try reflexivity.
  - rewrite andb_false_r; reflexivity.
  - rewrite IH. rewrite andb_assoc. reflexivity.
Qed.

Lemma startswith_skipn_firstn (p s : pystr) (j k : nat) :
  startswith p (skipn j (firstn k s))
  = startswith p (skipn j s) && (length p <=? k - j).
Proof. rewrite skipn_firstn_comm. apply startswith_firstn. Qed.

Lemma startswith_skipn_app (p s t : pystr) (j : nat) :
  startswith p (skipn j s) = true -> j <= length s ->
  startswith p (skipn j (s ++ t)) = true.
Proof.
  intros H Hj. rewrite skipn_app.
  replace (j - length s) with 0 by lia. simpl.
  destruct (startswith_inv _ _ H) as [u ->].
  rewrite <- app_assoc. apply startswith_app.
Qed.

(** [find] returns the first position at which [sub] occurs. *)
Lemma find_Some (sub s : pystr) (i : nat) :
  find sub s = Some i ->
  startswith sub (skipn i s) = true /\ i <= length s
  /\ forall j, j < i -> startswith sub (skipn j s) = false.
Proof.
  revert i; induction s as [|c s IH]; intros i H.
  - simpl in H. destruct (startswith sub []) eqn:E; [|discriminate].
    injection H as <-. simpl. repeat split; auto. intros j Hj; lia.
  - cbn [find] in H. destruct (startswith sub (c :: s)) eqn:E.
    + injection H as <-. simpl. repeat split; auto; [lia|]. intros j Hj; lia.
    + destruct (find sub s) as [k|] eqn:F; [|discriminate].
      injection H as <-. destruct (IH k eq_refl) as (H1 & H2 & H3).
      simpl. repeat split; auto; [lia|].
      intros [|j] Hj; [exact E|]. apply H3; lia.
Qed.

Lemma find_None (sub s : pystr) :
  find sub s = None -> forall j, startswith sub (skipn j s) = false.
Proof.
  induction s as [|c s IH]; intros H j.
  - simpl in H. rewrite skipn_nil.
    destruct (startswith sub []); [discriminate|reflexivity].
  - cbn [find] in H. destruct (startswith sub (c :: s)) eqn:E; [discriminate|].
    destruct (find sub s) eqn:F; [discriminate|].
    destruct j as [|j]; [exact E|]. simpl. apply IH; reflexivity.
Qed.

Lemma find_first (sub s : pystr) (i : nat) :
  startswith sub (skipn i s) = true -> i <= length s ->
  (forall j, j < i -> startswith sub (skipn j s) = false) ->
  find sub s = Some i.
Proof.
  revert i; induction s as [|c s IH]; intros i H Hi Hmin.
  - simpl in Hi. assert (i = 0) by lia; subst i. simpl in H.
    simpl. rewrite H. reflexivity.
  - destruct i as [|i].
    + simpl in H. cbn [find]. rewrite H. reflexivity.
    + cbn [find]. pose proof (Hmin 0 ltac:(lia)) as H0. simpl in H0.
      rewrite H0.
      rewrite (IH i); [reflexivity|exact H|simpl in Hi; lia|].
      intros j Hj. apply (Hmin (S j)). lia.
Qed.

Lemma find_absent (sub s : pystr) :
  (forall j, startswith sub (skipn j s) = false) -> find sub s = None.
Proof.
  induction s as [|c s IH]; intros H.
  - pose proof (H 0) as H0. simpl in H0. simpl. rewrite H0. reflexivity.
  - cbn [find]. pose proof (H 0) as H0. simpl in H0. rewrite H0.
    rewrite IH; [reflexivity|]. intros j. apply (H (S j)).
Qed.

(** An occurrence somewhere gives a first occurrence, not later. *)
Lemma find_occurrence (sub s : pystr) (i : nat) :
  startswith sub (skipn i s) = true -> i <= length s ->
  exists k, find sub s = Some k /\ k <= i.
Proof.
  intros H Hi. destruct (find sub s) as [k|] eqn:F.
  - exists k; split; [reflexivity|].
    destruct (find_Some _ _ _ F) as (_ & _ & Hmin).
    destruct (le_lt_dec k i); [assumption|].
    rewrite (Hmin i) in H by assumption. discriminate.
  - rewrite (find_None _ _ F) in H. discriminate.
Qed.

Lemma firstn_length_app (s t : pystr) : firstn (length s) (s ++ t) = s.
Proof.
  rewrite firstn_app, Nat.sub_diag, firstn_all. simpl. apply app_nil_r.
Qed.

Lemma find_app_l (sub s t : pystr) (i : nat) :
  find sub s = Some i -> find sub (s ++ t) = Some i.
Proof.
  intros F. destruct (find_Some _ _ _ F) as (H1 & H2 & H3).
  pose proof (startswith_length _ _ H1) as Hlen. rewrite length_skipn in Hlen.
  apply find_first.
  - apply startswith_skipn_app; assumption.
  - rewrite length_app; lia.
  - intros j Hj. specialize (H3 j Hj).
    destruct (startswith sub (skipn j (s ++ t))) eqn:E; [|reflexivity].
    assert (Hs : startswith sub (skipn j s) = true); [|congruence].
    rewrite <- (firstn_length_app s t).
    rewrite startswith_skipn_firstn, E. simpl.
    apply Nat.leb_le. lia.
Qed.

(** Cutting [s] at [k] keeps the occurrences that end by [k]. *)
Lemma find_firstn_keeps (sub s : pystr) (q k : nat) :
  find sub s = Some q -> q + length sub <= k ->
  find sub (firstn k s) = Some q.
Proof.
  intros F Hk. destruct (find_Some _ _ _ F) as (H1 & H2 & H3).
  apply find_first.
  - rewrite startswith_skipn_firstn, H1. apply Nat.leb_le. lia.
  - rewrite length_firstn. lia.
  - intros j Hj. rewrite startswith_skipn_firstn, (H3 j Hj). reflexivity.
Qed.

Lemma find_firstn_loses (sub s : pystr) (q k : nat) :
  find sub s = Some q -> k < q + length sub ->
  find sub (firstn k s) = None.
Proof.
  intros F Hk. destruct (find_Some _ _ _ F) as (H1 & H2 & H3).
  assert (Hsub : 0 < length sub).
  { destruct sub; simpl; [|lia].
    destruct s; simpl in F; injection F as <-; simpl in Hk; lia. }
  apply find_absent. intros j. rewrite startswith_skipn_firstn.
  destruct (le_lt_dec q j) as [Hq|Hq].
  - replace (length sub <=? k - j) with false; [apply andb_false_r|].
    symmetry. apply Nat.leb_gt. lia.
  - rewrite (H3 j Hq). reflexivity.
Qed.

Lemma find_firstn_none (sub s : pystr) (k : nat) :
  find sub s = None -> find sub (firstn k s) = None.
Proof.
  intros F. apply find_absent. intros j.
  rewrite startswith_skipn_firstn, (find_None _ _ F). reflexivity.
Qed.

Lemma find_skipn_none (sub s : pystr) (k : nat) :
  find sub s = None -> find sub (skipn k s) = None.
Proof.
  intros F. apply find_absent. intros j.
  rewrite skipn_skipn. apply (find_None _ _ F).
Qed.

Lemma contains_infix (x a b : pystr) : contains x (a ++ x ++ b) = true.
Proof.
  unfold contains.
  destruct (find_occurrence x (a ++ x ++ b) (length a)) as (k & -> & _).
  - rewrite skipn_app, skipn_all, Nat.sub_diag. simpl. apply startswith_app.
  - rewrite length_app. lia.
  - reflexivity.
Qed.

Lemma contains_inv (x s : pystr) :
  contains x s = true -> exists a b, s = a ++ x ++ b.
Proof.
  unfold contains. destruct (find x s) as [i|] eqn:F; [intros _|discriminate].
  destruct (find_Some _ _ _ F) as (H & _ & _).
  destruct (startswith_inv _ _ H) as [b Hb].
  exists (firstn i s), b. rewrite <- Hb. symmetry. apply firstn_skipn.
Qed.

(** ** [split] *)

Lemma find_in_empty (sep : pystr) : sep <> [] -> find sep [] = None.
Proof. destruct sep; [congruence|reflexivity]. Qed.

(** Any bound from [length s] on gives the same pieces. *)
Lemma split_n_enough (sep : pystr) (n m : nat) (s : pystr) :
  sep <> [] -> length s <= n -> length s <= m ->
  split_n n sep s = split_n m sep s.
Proof.
  intros Hsep. revert m s; induction n as [|n IH]; intros m s Hn Hm.
  - destruct s; [|simpl in Hn; lia].
    destruct m; cbn [split_n]; rewrite (find_in_empty _ Hsep); reflexivity.
  - destruct m as [|m].
    + destruct s; [|simpl in Hm; lia].
      cbn [split_n]; rewrite (find_in_empty _ Hsep); reflexivity.
    + cbn [split_n]. destruct (find sep s) as [i|] eqn:F; [|reflexivity].
      f_equal. destruct s as [|c s].
      { rewrite (find_in_empty _ Hsep) in F; discriminate. }
      assert (0 < length sep) by (destruct sep; simpl; [congruence|lia]).
      apply IH; rewrite length_skipn; cbn [length] in *; lia.
Qed.

(** [split] cuts at the first separator and goes on after it. *)
Lemma split_eq (s sep : pystr) :
  sep <> [] ->
  split s sep =
  match find sep s with
  | None => [s]
  | Some i => firstn i s :: split (skipn (i + length sep) s) sep
  end.
Proof.
  intros Hsep. unfold split. destruct s as [|c s].
  - cbn [length split_n]. rewrite (find_in_empty _ Hsep). reflexivity.
  - cbn [length split_n]. destruct (find sep (c :: s)) as [i|]; [|reflexivity].
    f_equal. assert (0 < length sep) by (destruct sep; simpl; [congruence|lia]).
    apply split_n_enough; [assumption| |lia].
    rewrite length_skipn. cbn [length]. lia.
Qed.

Lemma fence_nonempty : fence <> [].
Proof. discriminate. Qed.

Lemma java_fence_nonempty : java_fence <> [].
Proof. discriminate. Qed.

Lemma java_fence_opens_with_fence (s : pystr) :
  startswith java_fence s = true -> startswith fence s = true.
Proof. apply (startswith_prefix fence (str "java")). Qed.

(** What lines 129-136 compute, in terms of first occurrences. *)
Lemma extract_eq (raw : pystr) :
  extract raw =
  Return (strip
    match find java_fence raw with
    | None => raw
    | Some i =>
        up_to_fence (up_to_next_marker (skipn (i + length java_fence) raw))
    end).
Proof.
  unfold extract, contains.
  destruct (find java_fence raw) as [i|] eqn:F; [|reflexivity].
  rewrite (split_eq raw _ java_fence_nonempty), F.
  unfold up_to_fence, up_to_next_marker.
  set (rest := skipn (i + length java_fence) raw).
  rewrite (split_eq rest _ java_fence_nonempty).
  destruct (find java_fence rest) as [p|]; cbn [getitem nth_error];
    rewrite (split_eq _ _ fence_nonempty);
    destruct (find fence _); reflexivity.
Qed.

Lemma fence_before_marker (rest : pystr) (q p : nat) :
  find fence rest = Some q -> find java_fence rest = Some p -> q <= p.
Proof.
  intros Fq Fp.
  destruct (find_Some _ _ _ Fq) as (_ & _ & Hmin).
  destruct (find_Some _ _ _ Fp) as (Hp & _ & _).
  apply java_fence_opens_with_fence in Hp.
  destruct (le_lt_dec q p) as [|Hlt]; [assumption|].
  rewrite (Hmin p Hlt) in Hp. discriminate.
Qed.

Lemma no_fence_no_marker (rest : pystr) :
  find fence rest = None -> find java_fence rest = None.
Proof.
  intros Fq. destruct (find java_fence rest) as [p|] eqn:Fp; [|reflexivity].
  destruct (find_Some _ _ _ Fp) as (Hp & _ & _).
  apply java_fence_opens_with_fence in Hp.
  rewrite (find_None _ _ Fq) in Hp. discriminate.
Qed.

(** No closing fence after the opening marker: all of the rest is kept. *)
Lemma pieces_without_fence (rest : pystr) :
  find fence rest = None -> up_to_fence (up_to_next_marker rest) = rest.
Proof.
  intros Fq. unfold up_to_next_marker.
  rewrite (no_fence_no_marker _ Fq). unfold up_to_fence. rewrite Fq.
  reflexivity.
Qed.

(** The first fence after the opening marker ends the piece, unless an
    opening marker starts one or two characters into it. *)
Lemma pieces_up_to_fence (rest : pystr) (q : nat) :
  find fence rest = Some q ->
  startswith java_fence (skipn (q + 1) rest) = false ->
  startswith java_fence (skipn (q + 2) rest) = false ->
  up_to_fence (up_to_next_marker rest) = firstn q rest.
Proof.
  intros Fq H1 H2. unfold up_to_next_marker.
  destruct (find java_fence rest) as [p|] eqn:Fp.
  - pose proof (fence_before_marker _ _ _ Fq Fp) as Hqp.
    destruct (find_Some _ _ _ Fp) as (Hp & _ & _).
    assert (Hcases : p = q \/ q + 3 <= p).
    { destruct (Nat.eq_dec p (q + 1)) as [->|]; [congruence|].
      destruct (Nat.eq_dec p (q + 2)) as [->|]; [congruence|]. lia. }
    unfold up_to_fence. destruct Hcases as [->|Hfar].
    + rewrite (find_firstn_loses _ _ _ _ Fq); [reflexivity|].
      change (length fence) with 3. lia.
    + rewrite (find_firstn_keeps _ _ _ _ Fq) by exact Hfar.
      rewrite firstn_firstn. f_equal. lia.
  - unfold up_to_fence. rewrite Fq. reflexivity.
Qed.

(** With an opening marker one or two characters into the fence, the
    piece runs up to that marker. *)
Lemma pieces_up_to_marker (rest : pystr) (q p : nat) :
  find fence rest = Some q -> find java_fence rest = Some p ->
  q < p < q + 3 ->
  up_to_fence (up_to_next_marker rest) = firstn p rest.
Proof.
  intros Fq Fp Hp. unfold up_to_next_marker, up_to_fence. rewrite Fp.
  rewrite (find_firstn_loses _ _ _ _ Fq); [reflexivity|].
  change (length fence) with 3. lia.
Qed.

(** ** [strip] keeps a segment of its argument *)

Lemma lstrip_skipn (s : pystr) : exists j, lstrip s = skipn j s.
Proof.
  induction s as [|c s [j IH]].
  - exists 0; reflexivity.
  - simpl. destruct (isspace c).
    + exists (S j). exact IH.
    + exists 0. reflexivity.
Qed.

Lemma rstrip_firstn (s : pystr) : exists k, rstrip s = firstn k s.
Proof.
  unfold rstrip. destruct (lstrip_skipn (rev s)) as [j ->].
  exists (length s - j). rewrite skipn_rev. apply rev_involutive.
Qed.

Lemma strip_segment (s : pystr) : exists j k, strip s = firstn k (skipn j s).
Proof.
  unfold strip. destruct (lstrip_skipn s) as [j ->].
  destruct (rstrip_firstn (skipn j s)) as [k ->]. exists j, k; reflexivity.
Qed.

Lemma strip_no_fence (s : pystr) :
  find fence s = None -> find fence (strip s) = None.
Proof.
  intros F. destruct (strip_segment s) as (j & k & ->).
  apply find_firstn_none, find_skipn_none, F.
Qed.

Lemma up_to_fence_no_fence (part : pystr) : find fence (up_to_fence part) = None.
Proof.
  unfold up_to_fence. destruct (find fence part) as [q|] eqn:F; [|exact F].
  apply (find_firstn_loses _ _ _ _ F). change (length fence) with 3. lia.
Qed.

(** ** The extracted code block *)

(** C1 (amended).  [extract] never raises.  Without an opening marker the
    result is the raw text, trimmed.  With one and no fence after it, the
    result is all the text after the marker, trimmed.  With a fence after
    it, the result is the text between the first opening marker and the
    first fence after it, trimmed, provided no further opening marker
    starts one or two characters into that fence; if one does, the text
    runs up to that marker. *)
Theorem extract_cases (raw : pystr) :
  (find java_fence raw = None -> extract raw = Return (strip raw))
  /\ (forall i, find java_fence raw = Some i ->
      let rest := skipn (i + length java_fence) raw in
      (find fence rest = None -> extract raw = Return (strip rest))
      /\ (forall q, find fence rest = Some q ->
          startswith java_fence (skipn (q + 1) rest) = false ->
          startswith java_fence (skipn (q + 2) rest) = false ->
          extract raw = Return (strip (firstn q rest)))
      /\ (forall q p, find fence rest = Some q ->
          find java_fence rest = Some p -> q < p < q + 3 ->
          extract raw = Return (strip (firstn p rest)))).
Proof.
  split.
  - intros F. rewrite extract_eq, F. reflexivity.
  - intros i F rest. rewrite extract_eq, F. fold rest. repeat split.
    + intros Fq. rewrite (pieces_without_fence _ Fq). reflexivity.
    + intros q Fq H1 H2. rewrite (pieces_up_to_fence _ _ Fq H1 H2). reflexivity.
    + intros q p Fq Fp Hp. rewrite (pieces_up_to_marker _ _ _ Fq Fp Hp).
      reflexivity.
Qed.

Lemma extract_cases_witness :
  extract (str "  no fence here ") = Return (str "no fence here")
  /\ extract (str "see ```java  int x; ") = Return (str "int x;")
  /\ extract (str "prefix ```java" ++ nl ++ str "CODE" ++ nl ++ str "``` suffix")
     = Return (str "CODE")
  /\ extract (str "```javax````java") = Return (str "x`").
Proof.
  split; [|split; [|split]].
  - exact (proj1 (extract_cases (str "  no fence here ")) eq_refl).
  - exact (proj1 (proj2 (extract_cases (str "see ```java  int x; ")) 4 eq_refl)
             eq_refl).
  - exact (proj1 (proj2 (proj2 (extract_cases
             (str "prefix ```java" ++ nl ++ str "CODE" ++ nl ++ str "``` suffix"))
             7 eq_refl)) 6 eq_refl eq_refl eq_refl).
  - exact (proj2 (proj2 (proj2 (extract_cases (str "```javax````java"))
             0 eq_refl)) 1 2 eq_refl eq_refl (conj (le_n 2) (le_S 3 3 (le_n 3)))).
Defined.

(** C1 as stated fails where the first fence after the opening marker
    runs into a second opening marker: in [```javax````java] the marker
    is at 0 and the first fence after it at 1 of the rest, but the code
    keeps [x`], not the [x] between the two. *)
Lemma extract_is_not_the_scan :
  let raw := str "```javax````java" in
  let rest := skipn (0 + length java_fence) raw in
  find java_fence raw = Some 0 /\ find fence rest = Some 1
  /\ extract raw = Return (str "x`")
  /\ extract_by_scan raw = str "x"
  /\ extract raw <> Return (strip (firstn 1 rest)).
Proof.
  vm_compute. repeat split; discriminate.
Qed.

(** C2 (amended).  Only the first open/close pair counts, and what comes
    after its closing fence is dropped: the result is the trimmed body of
    the first block whatever follows it (unless what follows turns the
    closing fence into the start of an opening marker), and the result
    of a text with an opening marker never contains a fence, so no later
    fenced block survives in it. *)
Theorem later_blocks_are_dropped :
  (forall pre body tail : pystr,
      find java_fence (pre ++ java_fence) = Some (length pre) ->
      find fence (body ++ fence) = Some (length body) ->
      startswith (str "`java") tail = false ->
      startswith (str "``java") tail = false ->
      extract (pre ++ java_fence ++ body ++ fence ++ tail)
      = Return (strip body))
  /\ (forall raw : pystr,
      contains java_fence raw = true ->
      exists r, extract raw = Return r /\ contains fence r = false).
Proof.
  split.
  - intros pre body tail Hpre Hbody Ht1 Ht2.
    rewrite extract_eq.
    assert (F : find java_fence (pre ++ java_fence ++ body ++ fence ++ tail)
                = Some (length pre)).
    { rewrite app_assoc. apply find_app_l, Hpre. }
    rewrite F.
    assert (R : skipn (length pre + length java_fence)
                  (pre ++ java_fence ++ body ++ fence ++ tail)
                = body ++ fence ++ tail).
    { rewrite skipn_app, skipn_all2 by lia.
      replace (length pre + length java_fence - length pre)
        with (length java_fence) by lia.
      rewrite skipn_app, skipn_all, Nat.sub_diag. reflexivity. }
    rewrite R.
    assert (Fq : find fence (body ++ fence ++ tail) = Some (length body)).
    { rewrite app_assoc. apply find_app_l, Hbody. }
    rewrite (pieces_up_to_fence _ _ Fq).
    + rewrite firstn_length_app. reflexivity.
    + rewrite skipn_app, skipn_all2 by lia.
      replace (length body + 1 - length body) with 1 by lia. exact Ht1.
    + rewrite skipn_app, skipn_all2 by lia.
      replace (length body + 2 - length body) with 2 by lia. exact Ht2.
  - intros raw H. rewrite extract_eq. eexists; split; [reflexivity|].
    unfold contains in *. destruct (find java_fence raw) as [i|]; [|discriminate].
    rewrite strip_no_fence; [reflexivity|]. apply up_to_fence_no_fence.
Qed.

Lemma later_blocks_are_dropped_witness :
  extract (str "Here: ```java A ``` and ```java B ```") = Return (str "A")
  /\ exists r, extract (str "```java A ``` and ```java B ```") = Return r
               /\ contains fence r = false.
Proof.
  split.
  - exact (proj1 later_blocks_are_dropped (str "Here: ") (str " A ")
             (str " and ```java B ```") eq_refl eq_refl eq_refl eq_refl).
  - exact (proj2 later_blocks_are_dropped
             (str "```java A ``` and ```java B ```") eq_refl).
Defined.

(** C2 as stated fails: of two fenced blocks the second does not stay in
    the result. *)
Lemma second_block_is_not_kept :
  let second := str "```java" ++ nl ++ str "B" ++ nl ++ str "```" in
  let raw := str "```java" ++ nl ++ str "A" ++ nl ++ str "```" ++ nl ++ second in
  extract raw = Return (str "A")
  /\ contains second (str "A") = false
  /\ contains (str "B") (str "A") = false.
Proof.
  vm_compute. repeat split.
Qed.

(** ** The prompt *)

Lemma unlines_line (ls : list pystr) (l : pystr) :
  In l ls -> exists a b, unlines ls = a ++ l ++ b.
Proof.
  unfold unlines. induction ls as [|x ls IH]; intros H; [destruct H|].
  destruct H as [->|H].
  - exists [], (nl ++ concat (map (fun l => l ++ nl) ls)).
    simpl. rewrite <- app_assoc. reflexivity.
  - destruct (IH H) as (a & b & E). exists ((x ++ nl) ++ a), b.
    simpl. rewrite E, <- !app_assoc. reflexivity.
Qed.

Lemma endswith_app (a t : pystr) : endswith (a ++ t) t = true.
Proof.
  unfold endswith. rewrite length_app.
  replace (length a + length t - length t) with (length a) by lia.
  rewrite skipn_app, skipn_all, Nat.sub_diag. simpl.
  rewrite <- (app_nil_r t) at 2. rewrite startswith_app. simpl.
  apply Nat.leb_le. lia.
Qed.

(** C7.  For every source text [s], the empty one and those with fences
    included, [create_prompt s] is the fixed head, [s] itself and the
    fixed tail: it contains [s] verbatim and every line of the template,
    the same [s] gives the same prompt, and different texts give different
    prompts.  [create_prompt] is a total function of [s] alone. *)
Theorem create_prompt_embeds (s : pystr) :
  contains s (create_prompt s) = true
  /\ startswith prompt_head (create_prompt s) = true
  /\ endswith (create_prompt s) prompt_tail = true
  /\ length (create_prompt s) = length prompt_head + length s + length prompt_tail
  /\ (forall l, In l (prompt_lines_before ++ prompt_lines_after) ->
      contains l (create_prompt s) = true)
  /\ (forall s', s = s' -> create_prompt s = create_prompt s')
  /\ (forall s', create_prompt s = create_prompt s' -> s = s').
Proof.
  unfold create_prompt. repeat apply conj.
  - apply contains_infix.
  - apply startswith_app.
  - rewrite app_assoc. apply endswith_app.
  - rewrite !length_app. lia.
  - intros l H. apply in_app_or in H. destruct H as [H|H].
    + destruct (unlines_line _ _ H) as (a & b & E).
      unfold prompt_head. rewrite E.
      replace ((nl ++ a ++ l ++ b) ++ s ++ prompt_tail)
        with ((nl ++ a) ++ l ++ (b ++ s ++ prompt_tail))
        by (rewrite <- !app_assoc; reflexivity).
      apply contains_infix.
    + destruct (unlines_line _ _ H) as (a & b & E).
      unfold prompt_tail. rewrite E.
      replace (prompt_head ++ s ++ nl ++ a ++ l ++ b)
        with ((prompt_head ++ s ++ nl ++ a) ++ l ++ b)
        by (rewrite <- !app_assoc; reflexivity).
      apply contains_infix.
  - intros s' ->. reflexivity.
  - intros s' H. apply app_inv_head in H. apply app_inv_tail in H. exact H.
Qed.

Lemma create_prompt_embeds_witness :
  contains (str "[Context]") (create_prompt (str "class Foo { String s = ```; }")) = true
  /\ create_prompt [] = create_prompt []
  /\ str "class Foo {}" = str "class Foo {}".
Proof.
  pose proof (create_prompt_embeds (str "class Foo { String s = ```; }"))
    as (_ & _ & _ & _ & Hline & _ & _).
  pose proof (create_prompt_embeds []) as (_ & _ & _ & _ & _ & Hsame & _).
  pose proof (create_prompt_embeds (str "class Foo {}"))
    as (_ & _ & _ & _ & _ & _ & Hinj).
  split; [|split].
  - apply Hline. simpl. left. reflexivity.
  - apply Hsame. reflexivity.
  - apply Hinj. reflexivity.
Defined.

(** ** The worker *)

Section Worker.

Variable str_of_exn : pyexn -> pystr.

Lemma call_openai_api_eq (net : network) (java_code file_path : pystr) (a : app) :
  call_openai_api str_of_exn net java_code file_path a
  = (Return tt,
     after_worker a java_code
       (delivery_for str_of_exn (net (request_for (api_key a) java_code)))).
Proof.
  unfold call_openai_api, try_except, bind, gets, requests_post, lift,
    root_after, modify, after_worker, delivery_for.
  fold (request_for (api_key a) java_code).
  destruct (net (request_for (api_key a) java_code)) as [r|e]; [|reflexivity].
  destruct (status_code r =? 200)%Z; [|reflexivity].
  destruct (json r) as [v|e]; [|reflexivity].
  destruct (first_choice_content v) as [c|e]; [|reflexivity].
  destruct (extract_value c) as [t|e]; reflexivity.
Qed.

Lemma delivery_for_is_delivery (o : result response) :
  is_delivery (delivery_for str_of_exn o) = true.
Proof.
  unfold delivery_for. destruct o as [r|e]; [|reflexivity].
  destruct (status_code r =? 200)%Z; [|reflexivity].
  destruct (json r) as [v|e]; [|reflexivity].
  destruct (first_choice_content v) as [c|e]; [|reflexivity].
  destruct (extract_value c) as [t|e]; reflexivity.
Qed.

(** C4 (amended).  A response with a status other than 200 is delivered
    as the failure [API Error: ], the decimal status, a line break and
    the body text.  A transport failure is delivered as the failure
    [Error: ] followed by the text of the exception: that message never
    opens with [API Error: ], but the program has no error kinds, and an
    exception raised on a 200 response gets the very same delivery when
    its text is the same. *)
Theorem failure_messages (net : network) (java_code file_path : pystr) (a : app) :
  (forall r, net (request_for (api_key a) java_code) = Return r ->
     status_code r <> 200%Z ->
     let msg := str "API Error: " ++ str_of_int (status_code r) ++ nl ++ text r in
     call_openai_api str_of_exn net java_code file_path a
     = (Return tt, after_worker a java_code (show_error_cb msg))
     /\ labelled_api_error msg = true
     /\ contains (str_of_int (status_code r)) msg = true
     /\ contains (text r) msg = true)
  /\ (forall e, net (request_for (api_key a) java_code) = Raise e ->
     let msg := str "Error: " ++ str_of_exn e in
     call_openai_api str_of_exn net java_code file_path a
     = (Return tt, after_worker a java_code (show_error_cb msg))
     /\ labelled_api_error msg = false
     /\ contains (str_of_exn e) msg = true
     /\ forall (net' : network) r e',
         net' (request_for (api_key a) java_code) = Return r ->
         status_code r = 200%Z -> json r = Raise e' ->
         str_of_exn e' = str_of_exn e ->
         call_openai_api str_of_exn net' java_code file_path a
         = call_openai_api str_of_exn net java_code file_path a).
Proof.
  split.
  - intros r Hnet Hstatus msg. subst msg.
    rewrite call_openai_api_eq, Hnet. unfold delivery_for.
    apply Z.eqb_neq in Hstatus. rewrite Hstatus.
    repeat apply conj.
    + reflexivity.
    + apply startswith_app.
    + apply contains_infix.
    + rewrite <- (app_nil_r (text r)) at 2.
      replace (str "API Error: " ++ str_of_int (status_code r) ++ nl ++ text r ++ [])
        with ((str "API Error: " ++ str_of_int (status_code r) ++ nl) ++ text r ++ [])
        by (rewrite <- !app_assoc; reflexivity).
      apply contains_infix.
  - intros e Hnet msg. subst msg.
    rewrite call_openai_api_eq, Hnet. repeat apply conj.
    + reflexivity.
    + reflexivity.
    + rewrite <- (app_nil_r (str_of_exn e)) at 2. apply contains_infix.
    + intros net' r e' Hnet' Hstatus Hjson Htext.
      rewrite call_openai_api_eq, Hnet'. unfold delivery_for.
      rewrite Hstatus, Hjson, Htext. reflexivity.
Qed.

(** C5 (amended).  A 200 response whose body is not JSON, or has no
    choice, or lacks [choices[0].message.content], or holds something
    other than a string there, neither stops the worker nor yields a
    default: the exception raised is caught and delivered as a failure
    [Error: ] followed by its text, the form of a transport failure, not
    the [API Error: ] form. *)
Theorem malformed_success_is_a_generic_error
    (net : network) (java_code file_path : pystr) (a : app) (r : response) :
  net (request_for (api_key a) java_code) = Return r ->
  status_code r = 200%Z ->
  (forall e,
      json r = Raise e
      \/ (exists v, json r = Return v /\ first_choice_content v = Raise e)
      \/ (exists v c, json r = Return v /\ first_choice_content v = Return c
                      /\ extract_value c = Raise e) ->
      call_openai_api str_of_exn net java_code file_path a
      = (Return tt,
         after_worker a java_code (show_error_cb (str "Error: " ++ str_of_exn e)))
      /\ labelled_api_error (str "Error: " ++ str_of_exn e) = false)
  /\ (forall items, dict_get (str "choices") items = None ->
      first_choice_content (PyDict items) = Raise (KeyError (str "choices")))
  /\ (forall items, dict_get (str "choices") items = Some (PyList []) ->
      first_choice_content (PyDict items) = Raise IndexError)
  /\ (forall items choice others message,
      dict_get (str "choices") items = Some (PyList (PyDict choice :: others)) ->
      dict_get (str "message") choice = Some (PyDict message) ->
      dict_get (str "content") message = None ->
      first_choice_content (PyDict items) = Raise (KeyError (str "content")))
  /\ extract_value PyNone = Raise TypeError.
Proof.
  intros Hnet Hstatus. split; [|split; [|split; [|split]]].
  - intros e H. split; [|reflexivity].
    rewrite call_openai_api_eq, Hnet. unfold delivery_for.
    rewrite Hstatus. simpl Z.eqb. cbv iota.
    destruct H as [H|[(v & Hv & H)|(v & c & Hv & Hc & H)]].
    + rewrite H. reflexivity.
    + rewrite Hv, H. reflexivity.
    + rewrite Hv, Hc, H. reflexivity.
  - intros items H. unfold first_choice_content, subscript_key. rewrite H.
    reflexivity.
  - intros items H. unfold first_choice_content, subscript_key. rewrite H.
    reflexivity.
  - intros items choice others message H1 H2 H3.
    unfold first_choice_content, subscript_key. rewrite H1.
    cbn [subscript_index getitem nth_error]. rewrite H2, H3. reflexivity.
  - reflexivity.
Qed.

(** C9.  Whatever the source text, the path, the key and the state, the
    worker sends one request, and the model it names is [gpt-4o]. *)
Theorem model_is_fixed (net : network) (java_code file_path : pystr) (a : app) :
  exists req,
    posted (exec (call_openai_api str_of_exn net java_code file_path) a)
    = posted a ++ [req]
    /\ subscript_key (data req) (str "model") = Return (PyStr (str "gpt-4o")).
Proof.
  exists (request_for (api_key a) java_code). unfold exec.
  rewrite call_openai_api_eq. split; reflexivity.
Qed.

End Worker.

(** ** The event loop *)

Lemma length_remove_nth {A : Type} (l : list A) (i : nat) (x : A) :
  nth_error l i = Some x -> length l = S (length (remove_nth i l)).
Proof.
  revert i; induction l as [|y l IH]; intros [|i] H; simpl in *;
    try discriminate; [reflexivity|].
  f_equal. apply IH, H.
Qed.

Lemma filter_remove_nth {A : Type} (f : A -> bool) (l : list A) (i : nat) (x : A) :
  nth_error l i = Some x ->
  length (filter f l)
  = length (filter f (remove_nth i l)) + (if f x then 1 else 0).
Proof.
  revert i; induction l as [|y l IH]; intros [|i] H; simpl in *;
    try discriminate.
  - injection H as ->. destruct (f x); simpl; lia.
  - pose proof (IH i H) as E. destruct (f y); simpl; lia.
Qed.

Lemma filter_nonempty_nth {A : Type} (f : A -> bool) (l : list A) :
  filter f l <> [] -> exists i x, nth_error l i = Some x /\ f x = true.
Proof.
  induction l as [|y l IH]; simpl; [congruence|].
  destruct (f y) eqn:E.
  - intros _. exists 0, y. split; [reflexivity|exact E].
  - intros H. destruct (IH H) as (i & x & Hi & Hx). exists (S i), x. auto.
Qed.

Section EventLoop.

Variable str_of_exn : pyexn -> pystr.

Lemma same_controls_refl (a : app) : same_controls a a.
Proof. repeat split. Qed.

Lemma same_controls_trans (a b c : app) :
  same_controls a b -> same_controls b c -> same_controls a c.
Proof.
  unfold same_controls. intros (H1 & H2 & H3 & H4) (K1 & K2 & K3 & K4).
  repeat split; congruence.
Qed.

(** With no result queued, a due callback can only reset the status. *)
Lemma fire_quiet (i : nat) (a : app) :
  quiet a ->
  exists a', fire i a = (Return tt, a') /\ quiet a' /\ same_controls a a'
             /\ output_text (ui a') = output_text (ui a).
Proof.
  unfold quiet, fire. intros Hq.
  destruct (nth_error (after_queue a) i) as [cb|] eqn:E.
  - pose proof (filter_remove_nth is_delivery _ _ _ E) as Hlen.
    rewrite Hq in Hlen. simpl in Hlen.
    destruct cb; simpl in Hlen; try lia.
    eexists; split; [reflexivity|]. split; [|split].
    + simpl. destruct (filter is_delivery (remove_nth i (after_queue a)));
        [reflexivity|simpl in Hlen; lia].
    + repeat split.
    + reflexivity.
  - exists a. split; [reflexivity|]. split; [exact Hq|].
    split; [apply same_controls_refl|reflexivity].
Qed.

Lemma copy_selection_cases (first count : nat) (a : app) :
  exists a', copy_selection first count a = (Return tt, a')
             /\ ui a' = ui a /\ threads a' = threads a
             /\ after_queue a' = after_queue a /\ posted a' = posted a
             /\ api_key a' = api_key a /\ dialogs a' = dialogs a.
Proof.
  unfold copy_selection.
  destruct (truthy (firstn count (skipn first (output_text (ui a) ++ nl))));
    eexists; (split; [reflexivity|]); repeat split.
Qed.

(** With no result queued, what [root.update()] runs changes neither the
    threads nor the buttons, and the output area only by the keys typed
    into it. *)
Lemma root_update_quiet (pending : list idle_event) (a : app) :
  quiet a ->
  exists a', root_update pending a = (Return tt, a') /\ quiet a'
             /\ same_controls a a'
             /\ output_text (ui a') = typed_text pending (output_text (ui a)).
Proof.
  revert a; induction pending as [|[i|path|edit|first count] rest IH];
    intros a Hq.
  - exists a. split; [reflexivity|]. split; [exact Hq|].
    split; [apply same_controls_refl|reflexivity].
  - destruct (fire_quiet i a Hq) as (a1 & E1 & Hq1 & Hs1 & Ho1).
    destruct (IH a1 Hq1) as (a2 & E2 & Hq2 & Hs2 & Ho2).
    exists a2. cbn [root_update typed_text]. unfold bind. rewrite E1, E2.
    split; [reflexivity|]. split; [exact Hq2|].
    split; [apply (same_controls_trans _ _ _ Hs1 Hs2)|].
    rewrite Ho2, Ho1. reflexivity.
  - destruct (IH (with_ui (set_path_entry path) a) Hq)
      as (a2 & E2 & Hq2 & Hs2 & Ho2).
    exists a2. cbn [root_update typed_text]. unfold bind, config, modify.
    rewrite E2. split; [reflexivity|]. split; [exact Hq2|].
    split; [|exact Ho2].
    refine (same_controls_trans _ _ _ _ Hs2). repeat split.
  - destruct (IH (exec (edit_output edit) a) Hq) as (a2 & E2 & Hq2 & Hs2 & Ho2).
    exists a2. cbn [root_update typed_text].
    unfold bind, edit_output, config, modify, exec in *. cbn [snd] in *.
    rewrite E2. split; [reflexivity|]. split; [exact Hq2|].
    split; [|exact Ho2].
    refine (same_controls_trans _ _ _ _ Hs2). repeat split.
  - destruct (copy_selection_cases first count a)
      as (a1 & E1 & H1 & H2 & H3 & H4 & _).
    assert (Hq1 : quiet a1) by (unfold quiet; rewrite H3; exact Hq).
    destruct (IH a1 Hq1) as (a2 & E2 & Hq2 & Hs2 & Ho2).
    exists a2. cbn [root_update typed_text]. unfold bind. rewrite E1, E2.
    split; [reflexivity|]. split; [exact Hq2|]. split.
    + refine (same_controls_trans _ _ _ _ Hs2).
      unfold same_controls. rewrite H1, H2, H4. repeat split.
    + rewrite Ho2, H1. reflexivity.
Qed.

(** [generate_tests] either leaves the display, the threads and the queue
    alone (it showed an error box, or found the file empty), or it read a
    non-empty source and reached line 89. *)
Lemma generate_tests_cases (fs : filesystem) (pending : list idle_event) (a : app) :
  let file_path := strip (path_entry (ui a)) in
  (exists a', generate_tests str_of_exn fs pending a = (Return tt, a')
              /\ ui a' = ui a /\ threads a' = threads a
              /\ after_queue a' = after_queue a /\ clipboard a' = clipboard a
              /\ posted a' = posted a)
  \/ (exists java_code,
        read_text fs file_path = Return java_code /\ truthy java_code = true
        /\ generate_tests str_of_exn fs pending a
           = bind (root_update pending)
               (fun _ => thread_start (java_code, file_path)) (started a)).
Proof.
  intros file_path. unfold generate_tests, bind, gets. fold file_path.
  destruct (truthy file_path); cbn [negb];
    [|left; eexists; split; [reflexivity|repeat split]].
  destruct (path_exists fs file_path); cbn [negb];
    [|left; eexists; split; [reflexivity|repeat split]].
  destruct (endswith file_path (str ".java")); cbn [negb];
    [|left; eexists; split; [reflexivity|repeat split]].
  unfold read_java_file, try_except, bind, lift, ret.
  destruct (read_text fs file_path) as [java_code|e];
    [|left; eexists; split; [reflexivity|repeat split]].
  destruct (truthy java_code) eqn:T; cbn [negb];
    [|left; eexists; split; [reflexivity|repeat split]].
  right. exists java_code. repeat split. exact T.
Qed.

Lemma started_quiet (a : app) : quiet a -> quiet (started a).
Proof. exact (fun H => H). Qed.

(** An accepted start from a state with nothing in flight. *)
Lemma start_from_rest (pending : list idle_event) (w : pystr * pystr) (a : app) :
  quiet a -> threads a = [] ->
  exists a', bind (root_update pending) (fun _ => thread_start w) (started a)
             = (Return tt, a')
             /\ threads a' = [w] /\ quiet a'
             /\ generate_button (ui a') = DISABLED
             /\ copy_button (ui a') = DISABLED
             /\ output_text (ui a') = typed_text pending []
             /\ posted a' = posted a.
Proof.
  intros Hq Ht.
  destruct (root_update_quiet pending (started a) (started_quiet a Hq))
    as (a1 & E & Hq1 & (H1 & H2 & H3 & H4) & H5).
  unfold bind. rewrite E. eexists; split; [reflexivity|].
  cbn in H1, H2, H3, H4, H5 |- *. rewrite H1, Ht. repeat split; assumption.
Qed.

Lemma in_flight_quiet (a : app) :
  in_flight a = 0 -> quiet a /\ threads a = [].
Proof.
  unfold in_flight, quiet. intros H.
  destruct (threads a); [|simpl in H; lia].
  destruct (filter is_delivery (after_queue a)); [|simpl in H; lia].
  split; reflexivity.
Qed.

(** Every event keeps the invariant. *)
Lemma step_invariant (a : app) (e : event) :
  invariant a -> invariant (step str_of_exn a e).
Proof.
  intros Inv.
  destruct e as [path|fs pending| |i net|i|edit|first count]; unfold step.
  - (* typing *) exact Inv.
  - (* Generate *)
    unfold invariant in Inv. destruct (generate_button (ui a)) eqn:G;
      cbn [press]; [|unfold exec, ret; simpl; unfold invariant; rewrite G; exact Inv].
    destruct (generate_tests_cases fs pending a)
      as [(a' & E & H1 & H2 & H3 & H4 & H5)|(code & _ & _ & E)];
      unfold exec; rewrite E; cbn [snd].
    + unfold invariant, in_flight. rewrite H1, H2, H3, G. exact Inv.
    + destruct (in_flight_quiet a Inv) as [Hq Ht].
      destruct (start_from_rest pending (code, strip (path_entry (ui a))) a Hq Ht)
        as (a' & E' & K1 & K2 & K3 & K4 & _).
      rewrite E'. cbn [snd]. unfold invariant, in_flight.
      rewrite K3, K1. unfold quiet in K2. rewrite K2. repeat split; assumption.
  - (* Copy *)
    destruct (copy_button (ui a)) eqn:C; cbn [press]; [|exact Inv].
    unfold invariant, in_flight in *. cbn.
    rewrite filter_app. cbn. rewrite app_nil_r.
    destruct (generate_button (ui a)); [exact Inv|].
    destruct Inv as (_ & Hc). congruence.
  - (* a worker ends *)
    destruct (nth_error (threads a) i) as [[java_code file_path]|] eqn:E;
      [|exact Inv].
    unfold exec. rewrite call_openai_api_eq. cbn [snd].
    unfold invariant, in_flight in *. cbn.
    rewrite filter_app. cbn. rewrite delivery_for_is_delivery.
    rewrite length_app. cbn.
    rewrite (length_remove_nth _ _ _ E) in Inv.
    destruct (generate_button (ui a)); [lia|].
    destruct Inv as (H1 & H2). repeat split; [lia|assumption].
  - (* a queued callback runs *)
    unfold exec, fire.
    destruct (nth_error (after_queue a) i) as [cb|] eqn:E; [|exact Inv].
    pose proof (filter_remove_nth is_delivery _ _ _ E) as Hlen.
    unfold invariant, in_flight in *.
    destruct cb; cbn in Hlen |- *.
    + destruct (generate_button (ui a)); [lia|].
      destruct Inv as (H1 & _). lia.
    + destruct (generate_button (ui a)); [lia|].
      destruct Inv as (H1 & _). lia.
    + rewrite Nat.add_0_r in Hlen. rewrite <- Hlen. exact Inv.
  - (* the user edits the output area *) exact Inv.
  - (* the user copies a selection *)
    destruct (copy_selection_cases first count a)
      as (a' & E & H1 & H2 & H3 & _).
    unfold exec. rewrite E. cbn [snd]. unfold invariant, in_flight in *.
    rewrite H1, H2, H3. exact Inv.
Qed.

Lemma initial_invariant (key : pystr) : invariant (initial key).
Proof. reflexivity. Qed.

Lemma run_invariant (es : list event) (a : app) :
  invariant a -> invariant (run str_of_exn a es).
Proof.
  revert a; induction es as [|e es IH]; intros a Inv; [exact Inv|].
  apply IH, step_invariant, Inv.
Qed.

Lemma reachable_invariant (a : app) : reachable str_of_exn a -> invariant a.
Proof.
  intros (key & es & ->). apply run_invariant, initial_invariant.
Qed.

End EventLoop.

(** ** The dispatcher *)

Section Dispatcher.

Variable str_of_exn : pyexn -> pystr.

Lemma generate_tests_accepts (fs : filesystem) (pending : list idle_event)
    (a : app) (java_code : pystr) :
  let file_path := strip (path_entry (ui a)) in
  truthy file_path = true -> path_exists fs file_path = true ->
  endswith file_path (str ".java") = true ->
  read_text fs file_path = Return java_code -> truthy java_code = true ->
  generate_tests str_of_exn fs pending a
  = bind (root_update pending)
      (fun _ => thread_start (java_code, file_path)) (started a).
Proof.
  intros file_path H1 H2 H3 H4 H5.
  unfold generate_tests, bind, gets. fold file_path. rewrite H1, H2, H3.
  cbn [negb]. unfold read_java_file, try_except, bind, lift, ret.
  rewrite H4, H5. reflexivity.
Qed.

Lemma fire_delivery (a : app) (i : nat) (cb : callback) :
  nth_error (after_queue a) i = Some cb -> is_delivery cb = true ->
  generate_button (ui (step str_of_exn a (Fires i))) = NORMAL.
Proof.
  intros E D. unfold step, exec, fire. rewrite E.
  destruct cb; [reflexivity|reflexivity|discriminate].
Qed.

(** In a running state the one generation in flight is a thread still at
    work or a result queued; once the worker has run it is a result. *)
Lemma worker_leaves_one_result (a : app) (net : network) :
  invariant a -> generate_button (ui a) = DISABLED ->
  let a1 := step str_of_exn a (WorkerRuns 0 net) in
  threads a1 = []
  /\ exists i cb, nth_error (after_queue a1) i = Some cb
                  /\ is_delivery cb = true
                  /\ filter is_delivery (after_queue a1) = [cb].
Proof.
  intros Inv G a1. unfold invariant in Inv. rewrite G in Inv.
  destruct Inv as (Hin & _). unfold in_flight in Hin. subst a1. unfold step.
  destruct (threads a) as [|[java_code file_path] ts] eqn:T.
  - cbn [nth_error]. split; [exact T|].
    destruct (filter is_delivery (after_queue a)) as [|cb [|]] eqn:F;
      simpl in Hin; try lia.
    destruct (filter_nonempty_nth is_delivery (after_queue a)) as (i & x & Hi & Hx).
    { rewrite F; discriminate. }
    exists i, cb. assert (x = cb) as ->.
    { assert (Hin' : In x (filter is_delivery (after_queue a))).
      { apply filter_In. split; [|exact Hx]. apply (nth_error_In _ _ Hi). }
      rewrite F in Hin'. destruct Hin' as [->|[]]. reflexivity. }
    repeat split; assumption.
  - destruct ts; [|simpl in Hin; lia].
    destruct (filter is_delivery (after_queue a)) eqn:F; [|simpl in Hin; lia].
    cbn [nth_error]. unfold exec. rewrite call_openai_api_eq. cbn [snd].
    set (cb := delivery_for str_of_exn _).
    split; [cbn; rewrite T; reflexivity|].
    exists (length (after_queue a)), cb. cbn. repeat split.
    + rewrite nth_error_app2, Nat.sub_diag by lia. reflexivity.
    + apply delivery_for_is_delivery.
    + rewrite filter_app, F. cbn. unfold cb.
      rewrite delivery_for_is_delivery. reflexivity.
Qed.

(** C3.  The worker never raises and queues exactly one callback, a
    delivery, whatever the exchange gives; running a delivery enables
    Generate.  So from any running state the program reaches, once the
    worker has run there is exactly one result queued, and once it is
    delivered the dispatcher is idle, nothing is in flight, and a press of
    Generate on a readable Java file starts a worker again. *)
Theorem generation_returns_to_idle (key : pystr) (es : list event) (net : network) :
  let a := run str_of_exn (initial key) es in
  (forall java_code file_path s,
      exists cb,
        call_openai_api str_of_exn net java_code file_path s
        = (Return tt, after_worker s java_code cb)
        /\ is_delivery cb = true
        /\ forall s', dispatcher (exec (run_callback cb) s') = Idle)
  /\ (dispatcher a = Running ->
      let a1 := step str_of_exn a (WorkerRuns 0 net) in
      threads a1 = []
      /\ exists i cb,
          nth_error (after_queue a1) i = Some cb
          /\ is_delivery cb = true
          /\ filter is_delivery (after_queue a1) = [cb]
          /\ let a2 := step str_of_exn a1 (Fires i) in
             dispatcher a2 = Idle /\ in_flight a2 = 0
             /\ forall fs pending java_code,
                 let file_path := strip (path_entry (ui a2)) in
                 truthy file_path = true -> path_exists fs file_path = true ->
                 endswith file_path (str ".java") = true ->
                 read_text fs file_path = Return java_code ->
                 truthy java_code = true ->
                 threads (step str_of_exn a2 (PressGenerate fs pending))
                 = [(java_code, file_path)]).
Proof.
  intros a. split.
  - intros java_code file_path s. eexists. split; [apply call_openai_api_eq|].
    split; [apply delivery_for_is_delivery|].
    intros s'. pose proof (delivery_for_is_delivery str_of_exn
      (net (request_for (api_key s) java_code))) as D.
    destruct (delivery_for str_of_exn _); [reflexivity|reflexivity|discriminate].
  - intros Hrun a1.
    assert (Inv : invariant a)
      by (apply run_invariant, initial_invariant).
    assert (G : generate_button (ui a) = DISABLED).
    { unfold dispatcher in Hrun. destruct (generate_button (ui a));
        [discriminate|reflexivity]. }
    destruct (worker_leaves_one_result a net Inv G) as (Ht & i & cb & Hi & D & F).
    fold a1 in Ht, Hi, F. split; [exact Ht|].
    exists i, cb. split; [exact Hi|]. split; [exact D|]. split; [exact F|].
    assert (Inv2 : invariant (step str_of_exn a1 (Fires i)))
      by (apply step_invariant, step_invariant, Inv).
    pose proof (fire_delivery a1 i cb Hi D) as G2.
    assert (In0 : in_flight (step str_of_exn a1 (Fires i)) = 0).
    { unfold invariant in Inv2. rewrite G2 in Inv2. exact Inv2. }
    intros a2. fold a2 in G2, In0. split; [|split].
    + unfold dispatcher. rewrite G2. reflexivity.
    + exact In0.
    + intros fs pending java_code file_path H1 H2 H3 H4 H5.
      subst file_path. unfold step. rewrite G2. cbn [press]. unfold exec.
      rewrite (generate_tests_accepts fs pending a2 java_code H1 H2 H3 H4 H5).
      destruct (in_flight_quiet a2 In0) as [Hq Hth].
      destruct (start_from_rest pending
                  (java_code, strip (path_entry (ui a2))) a2 Hq Hth)
        as (a3 & E & K & _).
      rewrite E. exact K.
Qed.

(** C6.  In every state the program reaches at most one generation is in
    flight; while the dispatcher is running exactly one is, and a press
    of Generate changes nothing: no thread is added and the one in flight
    stays as it is. *)
Theorem one_generation_at_a_time (key : pystr) (es : list event) :
  let a := run str_of_exn (initial key) es in
  in_flight a <= 1
  /\ (dispatcher a = Running ->
      in_flight a = 1
      /\ forall fs pending, step str_of_exn a (PressGenerate fs pending) = a).
Proof.
  intros a.
  assert (Inv : invariant a) by (apply run_invariant, initial_invariant).
  unfold invariant in Inv. unfold dispatcher, step.
  destruct (generate_button (ui a)).
  - split; [lia|discriminate].
  - destruct Inv as (H & _). split; [lia|]. intros _. split; [exact H|].
    intros fs pending. reflexivity.
Qed.

(** A start that adds a thread passed every check of lines 70-86. *)
Lemma spawning_start_passed_checks
    (fs : filesystem) (pending : list idle_event) (a : app) :
  threads (exec (generate_tests str_of_exn fs pending) a) <> threads a ->
  let file_path := strip (path_entry (ui a)) in
  exists java_code,
    truthy file_path = true /\ path_exists fs file_path = true
    /\ endswith file_path (str ".java") = true
    /\ read_text fs file_path = Return java_code /\ truthy java_code = true.
Proof.
  intros Hspawn file_path. unfold exec in Hspawn.
  unfold generate_tests, read_java_file, try_except, bind, gets, lift, ret
    in Hspawn.
  fold file_path in Hspawn.
  destruct (truthy file_path) eqn:K1; cbn [negb] in Hspawn;
    [|exfalso; apply Hspawn; reflexivity].
  destruct (path_exists fs file_path) eqn:K2; cbn [negb] in Hspawn;
    [|exfalso; apply Hspawn; reflexivity].
  destruct (endswith file_path (str ".java")) eqn:K3; cbn [negb] in Hspawn;
    [|exfalso; apply Hspawn; reflexivity].
  destruct (read_text fs file_path) as [java_code|e] eqn:K4;
    [|exfalso; apply Hspawn; reflexivity].
  destruct (truthy java_code) eqn:K5; cbn [negb] in Hspawn;
    [|exfalso; apply Hspawn; reflexivity].
  exists java_code. repeat split; assumption.
Qed.

(** C10.  A press of Generate that dispatches a worker wipes what was on
    display: the state it leaves is the same whatever text the output
    area held and whether Copy was enabled or not; the output area then
    holds only what keys typed during the start have put there (nothing,
    if none were), Copy is disabled and the dispatcher runs.  As long as
    the dispatcher is running Copy stays disabled and a press of it does
    nothing; and the delivery of a failure puts the error message in the
    output area and leaves Copy disabled. *)
Theorem start_discards_the_previous_result
    (key : pystr) (es : list event) (fs : filesystem) (pending : list idle_event) :
  let a := run str_of_exn (initial key) es in
  let a1 := step str_of_exn a (PressGenerate fs pending) in
  (threads a1 <> threads a ->
   output_text (ui a1) = typed_text pending []
   /\ copy_button (ui a1) = DISABLED
   /\ dispatcher a1 = Running
   /\ forall shown st,
       step str_of_exn (redisplay shown st a) (PressGenerate fs pending) = a1)
  /\ (dispatcher a = Running ->
      copy_button (ui a) = DISABLED /\ step str_of_exn a PressCopy = a)
  /\ (forall i msg,
      nth_error (after_queue a) i = Some (show_error_cb msg) ->
      let a' := step str_of_exn a (Fires i) in
      output_text (ui a') = msg /\ copy_button (ui a') = DISABLED
      /\ step str_of_exn a' PressCopy = a').
Proof.
  intros a a1.
  assert (Inv : invariant a) by (apply run_invariant, initial_invariant).
  split; [|split].
  - intros Hspawn. subst a1. unfold step in *. unfold invariant in Inv.
    destruct (generate_button (ui a)) eqn:G; cbn [press] in *;
      [|exfalso; apply Hspawn; reflexivity].
    destruct (spawning_start_passed_checks fs pending a Hspawn)
      as (code & K1 & K2 & K3 & K4 & K5).
    unfold exec.
    rewrite (generate_tests_accepts fs pending a code K1 K2 K3 K4 K5).
    destruct (in_flight_quiet a Inv) as [Hq Ht].
    destruct (start_from_rest pending (code, strip (path_entry (ui a))) a Hq Ht)
      as (a' & E' & _ & _ & K6 & K7 & K8 & _).
    rewrite E'. cbn [snd]. unfold dispatcher. rewrite K6.
    split; [exact K8|]. split; [exact K7|]. split; [reflexivity|].
    intros shown st. cbn [redisplay with_ui ui generate_button set_copy_button
                          set_output_text].
    rewrite G. cbn [press].
    rewrite (generate_tests_accepts fs pending (redisplay shown st a) code
               K1 K2 K3 K4 K5).
    change (started (redisplay shown st a)) with (started a).
    change (strip (path_entry (ui (redisplay shown st a))))
      with (strip (path_entry (ui a))).
    rewrite E'. reflexivity.
  - unfold dispatcher, invariant in *. intros Hrun.
    destruct (generate_button (ui a)); [discriminate|].
    destruct Inv as (_ & Hc). split; [exact Hc|].
    unfold step. rewrite Hc. reflexivity.
  - intros i msg E a'. subst a'. unfold step at 1 2 3, exec, fire. rewrite E.
    cbn. split; [reflexivity|]. split; [reflexivity|].
    unfold step, exec, fire. rewrite E. reflexivity.
Qed.

End Dispatcher.

(** ** The program on concrete inputs *)

Lemma failure_messages_witness :
  let a := initial (str "sk-test") in
  let worker (net : network) :=
    call_openai_api plain_str_of_exn net (str "class Foo {}") (str "Foo.java") a in
  (let msg := str "API Error: " ++ str_of_int (status_code server_error) ++ nl
              ++ text server_error in
   worker (answering server_error)
   = (Return tt, after_worker a (str "class Foo {}") (show_error_cb msg))
   /\ labelled_api_error msg = true
   /\ contains (str_of_int (status_code server_error)) msg = true
   /\ contains (text server_error) msg = true)
  /\ (let msg := str "Error: " ++ str "Connection refused" in
      worker unreachable_network
      = (Return tt, after_worker a (str "class Foo {}") (show_error_cb msg))
      /\ labelled_api_error msg = false
      /\ contains (str "Connection refused") msg = true)
  /\ worker (answering {| status_code := 200; text := [];
                          json := Raise (JSONDecodeError (str "Connection refused")) |})
     = worker unreachable_network.
Proof.
  intros a worker. split; [|split].
  - apply (proj1 (failure_messages plain_str_of_exn (answering server_error)
                    (str "class Foo {}") (str "Foo.java") a) server_error).
    + reflexivity.
    + simpl. discriminate.
  - destruct (proj2 (failure_messages plain_str_of_exn unreachable_network
                       (str "class Foo {}") (str "Foo.java") a)
                (RequestException (str "Connection refused")) eq_refl)
      as (H1 & H2 & H3 & _).
    split; [exact H1|]. split; [exact H2|exact H3].
  - destruct (proj2 (failure_messages plain_str_of_exn unreachable_network
                       (str "class Foo {}") (str "Foo.java") a)
                (RequestException (str "Connection refused")) eq_refl)
      as (_ & _ & _ & H4).
    exact (H4 (answering {| status_code := 200; text := [];
                            json := Raise (JSONDecodeError (str "Connection refused")) |})
              {| status_code := 200; text := [];
                 json := Raise (JSONDecodeError (str "Connection refused")) |}
              (JSONDecodeError (str "Connection refused"))
              eq_refl eq_refl eq_refl eq_refl).
Defined.

(** C4 as stated fails: a transport failure gets no kind of its own; its
    delivery is the one a 200 response that is not JSON gets, when the
    two exceptions read the same. *)
Lemma transport_failure_is_delivered_like_a_malformed_reply :
  let a := initial (str "sk-test") in
  let worker (net : network) :=
    call_openai_api plain_str_of_exn net (str "class Foo {}") (str "Foo.java") a in
  let lost : network := fun _ => Raise (RequestException (str "Expecting value")) in
  worker lost
  = (Return tt,
     after_worker a (str "class Foo {}")
       (show_error_cb (str "Error: Expecting value")))
  /\ worker lost = worker (answering not_json).
Proof.
  vm_compute. split; reflexivity.
Qed.

Lemma malformed_success_is_a_generic_error_witness :
  let a := initial (str "sk-test") in
  call_openai_api plain_str_of_exn (answering not_json)
    (str "class Foo {}") (str "Foo.java") a
  = (Return tt,
     after_worker a (str "class Foo {}")
       (show_error_cb (str "Error: Expecting value")))
  /\ labelled_api_error (str "Error: Expecting value") = false.
Proof.
  intros a.
  apply (proj1 (malformed_success_is_a_generic_error plain_str_of_exn
                  (answering not_json) (str "class Foo {}") (str "Foo.java")
                  a not_json eq_refl eq_refl)
           (JSONDecodeError (str "Expecting value"))).
  left. reflexivity.
Defined.

(** C5 as stated fails: a 200 response that is not JSON is delivered
    under the label [Error: ], not [API Error: ], with the very callback
    a transport failure of the same text gives. *)
Lemma malformed_success_is_not_an_api_error :
  let a := initial (str "sk-test") in
  let delivered (net : network) :=
    after_queue
      (exec (call_openai_api plain_str_of_exn net (str "class Foo {}")
               (str "Foo.java")) a) in
  delivered (answering not_json) = [show_error_cb (str "Error: Expecting value")]
  /\ labelled_api_error (str "Error: Expecting value") = false
  /\ delivered (answering not_json)
     = delivered (fun _ => Raise (RequestException (str "Expecting value"))).
Proof.
  vm_compute. repeat split.
Qed.

Lemma one_generation_at_a_time_witness :
  let a := run plain_str_of_exn (initial (str "sk-test")) one_start in
  in_flight a = 1
  /\ forall fs pending, step plain_str_of_exn a (PressGenerate fs pending) = a.
Proof.
  intros a.
  apply (proj2 (one_generation_at_a_time plain_str_of_exn (str "sk-test") one_start)).
  reflexivity.
Defined.

Lemma generation_returns_to_idle_witness :
  let a := run plain_str_of_exn (initial (str "sk-test")) one_start in
  let a1 := step plain_str_of_exn a (WorkerRuns 0 unreachable_network) in
  threads a1 = []
  /\ exists i,
      threads (step plain_str_of_exn (step plain_str_of_exn a1 (Fires i))
                 (PressGenerate foo_fs []))
      = [(str "class Foo {}", str "Foo.java")].
Proof.
  intros a a1.
  destruct (proj2 (generation_returns_to_idle plain_str_of_exn (str "sk-test")
                     one_start unreachable_network) eq_refl)
    as (Ht & i & cb & Hi & _ & _ & _ & _ & Hstart).
  split; [exact Ht|]. exists i.
  assert (i = 0) as ->.
  { destruct i as [|[|i]]; [reflexivity|discriminate Hi|discriminate Hi]. }
  apply (Hstart foo_fs [] (str "class Foo {}")); reflexivity.
Defined.

Lemma start_discards_the_previous_result_witness :
  let content := str "```java" ++ nl ++ str "@Test void t(){}" ++ nl ++ str "```" in
  let shown :=
    one_start ++ [WorkerRuns 0 (answering (chat_response content)); Fires 0] in
  let a := run plain_str_of_exn (initial (str "sk-test")) shown in
  let a1 := step plain_str_of_exn a (PressGenerate foo_fs []) in
  let running := run plain_str_of_exn (initial (str "sk-test"))
                   (shown ++ [PressGenerate foo_fs []]) in
  let failed := run plain_str_of_exn (initial (str "sk-test"))
                  (shown ++ [PressGenerate foo_fs [];
                             WorkerRuns 0 unreachable_network]) in
  let a3 := step plain_str_of_exn failed (Fires 0) in
  (output_text (ui a) = str "@Test void t(){}" /\ copy_button (ui a) = NORMAL)
  /\ (output_text (ui a1) = [] /\ copy_button (ui a1) = DISABLED
      /\ dispatcher a1 = Running
      /\ step plain_str_of_exn (redisplay (str "another text") DISABLED a)
           (PressGenerate foo_fs []) = a1)
  /\ (copy_button (ui running) = DISABLED
      /\ step plain_str_of_exn running PressCopy = running)
  /\ (output_text (ui a3) = str "Error: Connection refused"
      /\ copy_button (ui a3) = DISABLED
      /\ step plain_str_of_exn a3 PressCopy = a3).
Proof.
  intros content shown a a1 running failed a3. split; [|split; [|split]].
  - vm_compute. split; reflexivity.
  - destruct (proj1 (start_discards_the_previous_result plain_str_of_exn
                       (str "sk-test") shown foo_fs []))
      as (H1 & H2 & H3 & H4).
    + vm_compute. discriminate.
    + split; [exact H1|]. split; [exact H2|]. split; [exact H3|].
      exact (H4 (str "another text") DISABLED).
  - refine (proj1 (proj2 (start_discards_the_previous_result plain_str_of_exn
                    (str "sk-test") (shown ++ [PressGenerate foo_fs []])
                    foo_fs [])) _).
    vm_compute. reflexivity.
  - refine (proj2 (proj2 (start_discards_the_previous_result plain_str_of_exn
                    (str "sk-test")
                    (shown ++ [PressGenerate foo_fs [];
                               WorkerRuns 0 unreachable_network])
                    foo_fs [])) 0 (str "Error: Connection refused") _).
    vm_compute. reflexivity.
Defined.

(** The scenarios of the specification, end to end. *)
Example success_end_to_end :
  let content := str "Here:" ++ nl ++ str "```java" ++ nl
                 ++ str "@Test void t(){}" ++ nl ++ str "```" in
  let a := run plain_str_of_exn (initial (str "sk-test"))
             (one_start ++ [WorkerRuns 0 (answering (chat_response content)); Fires 0]) in
  output_text (ui a) = str "@Test void t(){}"
  /\ copy_button (ui a) = NORMAL /\ dispatcher a = Idle.
Proof. vm_compute. repeat split. Qed.

Example failure_end_to_end :
  let a := run plain_str_of_exn (initial (str "sk-test"))
             (one_start ++ [WorkerRuns 0 (answering server_error); Fires 0]) in
  output_text (ui a) = str "API Error: 500" ++ nl ++ str "server error"
  /\ copy_button (ui a) = DISABLED /\ dispatcher a = Idle.
Proof. vm_compute. repeat split. Qed.

(** With Copy enabled, a press puts on the clipboard the text of the
    output area and one line break after it. *)
Lemma copy_appends_a_line_break (str_of_exn : pyexn -> pystr) (a : app) :
  copy_button (ui a) = NORMAL ->
  clipboard (step str_of_exn a PressCopy) = output_text (ui a) ++ nl.
Proof. intros H. unfold step. rewrite H. reflexivity. Qed.

(** C8 at the failing input: after a successful generation that shows
    [@Test void t(){}], Copy is enabled, and a press of it puts that text
    and a line break on the clipboard, not the text as shown. *)
Theorem copy_is_not_a_pass_through :
  let content := str "```java" ++ nl ++ str "@Test void t(){}" ++ nl ++ str "```" in
  let a := run plain_str_of_exn (initial (str "sk-test"))
             (one_start ++ [WorkerRuns 0 (answering (chat_response content)); Fires 0]) in
  let a' := step plain_str_of_exn a PressCopy in
  output_text (ui a) = str "@Test void t(){}"
  /\ copy_button (ui a) = NORMAL
  /\ output_text (ui a') = output_text (ui a)
  /\ clipboard a' = str "@Test void t(){}" ++ nl
  /\ clipboard a' <> output_text (ui a').
Proof.
  vm_compute. repeat split. discriminate.
Qed.

(** * Further properties of the code *)

(** ** What [strip] leaves *)

Lemma lstrip_head (s : pystr) :
  match lstrip s with [] => True | c :: _ => isspace c = false end.
Proof.
  induction s as [|c s IH]; simpl; [exact I|].
  destruct (isspace c) eqn:E; [exact IH|exact E].
Qed.

Lemma lstrip_fixed (r : pystr) :
  match r with [] => True | c :: _ => isspace c = false end -> lstrip r = r.
Proof. destruct r as [|c r]; simpl; [reflexivity|]. intros ->. reflexivity. Qed.

Lemma rev_rstrip (s : pystr) : rev (rstrip s) = lstrip (rev s).
Proof. unfold rstrip. apply rev_involutive. Qed.

Lemma rstrip_fixed (r : pystr) :
  match rev r with [] => True | c :: _ => isspace c = false end -> rstrip r = r.
Proof.
  intros H. unfold rstrip. rewrite (lstrip_fixed _ H). apply rev_involutive.
Qed.

Lemma firstn_head (k : nat) (t : pystr) :
  match t with [] => True | c :: _ => isspace c = false end ->
  match firstn k t with [] => True | c :: _ => isspace c = false end.
Proof. destruct k, t; simpl; auto. Qed.

(** The ends of a stripped text are no whitespace. *)
Lemma strip_ends (s : pystr) :
  match strip s with [] => True | c :: _ => isspace c = false end
  /\ match rev (strip s) with [] => True | c :: _ => isspace c = false end.
Proof.
  unfold strip. split.
  - destruct (rstrip_firstn (lstrip s)) as [k ->].
    apply firstn_head, lstrip_head.
  - rewrite rev_rstrip. apply lstrip_head.
Qed.

Lemma strip_idempotent (s : pystr) : strip (strip s) = strip s.
Proof.
  destruct (strip_ends s) as [H1 H2].
  unfold strip at 1. rewrite (lstrip_fixed _ H1). apply rstrip_fixed, H2.
Qed.

Lemma strip_no_marker (s : pystr) :
  find java_fence s = None -> find java_fence (strip s) = None.
Proof.
  intros F. destruct (strip_segment s) as (j & k & ->).
  apply find_firstn_none, find_skipn_none, F.
Qed.

(** X1.  The text [extract] returns neither begins nor ends with
    whitespace. *)
Theorem extract_is_trimmed (raw r : pystr) :
  extract raw = Return r ->
  strip r = r
  /\ (forall c rest, r = c :: rest -> isspace c = false)
  /\ (forall c front, r = front ++ [c] -> isspace c = false).
Proof.
  rewrite extract_eq. intros H. injection H as <-.
  set (x := match find java_fence raw with
            | Some i => _ | None => raw end).
  destruct (strip_ends x) as [H1 H2]. split; [apply strip_idempotent|]. split.
  - intros c rest E. rewrite E in H1. exact H1.
  - intros c front E. rewrite E, rev_app_distr in H2. exact H2.
Qed.

Lemma extract_is_trimmed_witness :
  strip (str "int x;") = str "int x;"
  /\ isspace 105 = false /\ isspace 59 = false.
Proof.
  pose proof (extract_is_trimmed (str "see ```java  int x; ") (str "int x;") eq_refl)
    as (H1 & H2 & H3).
  split; [exact H1|]. split.
  - exact (H2 105%N (str "nt x;") eq_refl).
  - exact (H3 59%N (str "int x") eq_refl).
Defined.

(** X2.  Extracting from an extracted text changes nothing: it holds no
    opening marker any more and is already trimmed. *)
Theorem extract_is_idempotent (raw r : pystr) :
  extract raw = Return r -> extract r = Return r.
Proof.
  intros H. rewrite extract_eq in H.
  assert (F : find java_fence r = None).
  { injection H as <-. destruct (find java_fence raw) as [i|] eqn:E.
    - apply no_fence_no_marker, strip_no_fence, up_to_fence_no_fence.
    - apply strip_no_marker, E. }
  assert (S : strip r = r) by (injection H as <-; apply strip_idempotent).
  rewrite extract_eq, F, S. reflexivity.
Qed.

Lemma extract_is_idempotent_witness :
  extract (str "CODE") = Return (str "CODE").
Proof.
  exact (extract_is_idempotent
           (str "prefix ```java" ++ nl ++ str "CODE" ++ nl ++ str "``` suffix")
           (str "CODE") eq_refl).
Defined.

(** ** The extracted text is a piece of the reply *)

Lemma firstn_piece (k : nat) (s : pystr) : exists b, s = firstn k s ++ b.
Proof. exists (skipn k s). symmetry. apply firstn_skipn. Qed.

Lemma skipn_piece (k : nat) (s : pystr) : exists a, s = a ++ skipn k s.
Proof. exists (firstn k s). symmetry. apply firstn_skipn. Qed.

Lemma strip_piece (s : pystr) : exists a b, s = a ++ strip s ++ b.
Proof.
  destruct (strip_segment s) as (j & k & ->).
  destruct (skipn_piece j s) as [a Ha].
  destruct (firstn_piece k (skipn j s)) as [b Hb].
  exists a, b. rewrite <- Hb. exact Ha.
Qed.

Lemma up_to_fence_piece (s : pystr) : exists b, s = up_to_fence s ++ b.
Proof.
  unfold up_to_fence. destruct (find fence s).
  - apply firstn_piece.
  - exists []. symmetry. apply app_nil_r.
Qed.

Lemma up_to_next_marker_piece (s : pystr) : exists b, s = up_to_next_marker s ++ b.
Proof.
  unfold up_to_next_marker. destruct (find java_fence s).
  - apply firstn_piece.
  - exists []. symmetry. apply app_nil_r.
Qed.

(** X3.  [extract] invents nothing: what it returns stands, as it is,
    somewhere in the raw text. *)
Theorem extract_is_part_of_the_reply (raw r : pystr) :
  extract raw = Return r ->
  (exists before after, raw = before ++ r ++ after)
  /\ contains r raw = true.
Proof.
  intros H. rewrite extract_eq in H.
  assert (P : exists before after, raw = before ++ r ++ after).
  { injection H as <-. destruct (find java_fence raw) as [i|].
    - match goal with
      | |- context [skipn ?k raw] =>
          destruct (skipn_piece k raw) as [a Ha]; set (rest := skipn k raw) in *
      end.
      destruct (up_to_next_marker_piece rest) as [b Hb].
      destruct (up_to_fence_piece (up_to_next_marker rest)) as [c Hc].
      destruct (strip_piece (up_to_fence (up_to_next_marker rest))) as (d & e & Hd).
      exists (a ++ d), (e ++ c ++ b).
      rewrite Ha at 1. rewrite Hb at 1. rewrite Hc at 1. rewrite Hd at 1.
      rewrite <- !app_assoc. reflexivity.
    - apply strip_piece. }
  split; [exact P|]. destruct P as (a & b & E). rewrite E.
  apply contains_infix.
Qed.

Lemma extract_is_part_of_the_reply_witness :
  contains (str "CODE")
    (str "prefix ```java" ++ nl ++ str "CODE" ++ nl ++ str "``` suffix") = true.
Proof.
  exact (proj2 (extract_is_part_of_the_reply
           (str "prefix ```java" ++ nl ++ str "CODE" ++ nl ++ str "``` suffix")
           (str "CODE") eq_refl)).
Defined.

(** ** The prompt's own code block *)

Lemma rstrip_line_break (x : pystr) : rstrip (x ++ nl) = rstrip x.
Proof. unfold rstrip. rewrite rev_app_distr. reflexivity. Qed.

Lemma strip_line (s : pystr) : strip (nl ++ s ++ nl) = strip s.
Proof.
  unfold strip. change (lstrip (nl ++ s ++ nl)) with (lstrip (s ++ nl)).
  induction s as [|c s IH].
  - reflexivity.
  - simpl. destruct (isspace c); [exact IH|].
    apply (rstrip_line_break (c :: s)).
Qed.

(** A line without a fence, closed by a fence: the closing one is the
    first. *)
Lemma fence_after_line (s : pystr) :
  find fence s = None ->
  find fence ((nl ++ s ++ nl) ++ fence) = Some (length (nl ++ s ++ nl)).
Proof.
  intros F. apply find_first.
  - rewrite skipn_app, skipn_all, Nat.sub_diag. reflexivity.
  - rewrite (length_app (nl ++ s ++ nl) fence). lia.
  - intros [|j] Hj; [reflexivity|].
    change (skipn (S j) ((nl ++ s ++ nl) ++ fence))
      with (skipn j ((s ++ nl) ++ fence)).
    change (length (nl ++ s ++ nl)) with (S (length (s ++ nl))) in Hj.
    rewrite length_app in Hj. simpl in Hj.
    rewrite <- app_assoc, skipn_app.
    replace (j - length s) with 0 by lia.
    pose proof (find_None _ _ F j) as H0.
    destruct (skipn j s) as [|a [|b [|c u]]]; simpl in *.
    + reflexivity.
    + apply andb_false_r.
    + rewrite !andb_false_r. reflexivity.
    + exact H0.
Qed.

Lemma prompt_head_ends_with_marker :
  exists pre, prompt_head = pre ++ java_fence ++ nl
              /\ find java_fence (pre ++ java_fence) = Some (length pre).
Proof.
  exists (firstn (length prompt_head - 8) prompt_head).
  vm_compute. split; reflexivity.
Qed.

Lemma prompt_tail_opens_with_fence :
  exists tl, prompt_tail = nl ++ fence ++ tl
             /\ startswith java_fence (skipn 1 (fence ++ tl)) = false
             /\ startswith java_fence (skipn 2 (fence ++ tl)) = false.
Proof.
  exists (skipn 4 prompt_tail). vm_compute. repeat split.
Qed.

(** The body of the first block, when its closing fence is the first
    fence after the opening marker and starts no opening marker. *)
Lemma extract_first_block (pre body tl : pystr) :
  find java_fence (pre ++ java_fence) = Some (length pre) ->
  find fence (body ++ fence) = Some (length body) ->
  startswith java_fence (skipn 1 (fence ++ tl)) = false ->
  startswith java_fence (skipn 2 (fence ++ tl)) = false ->
  extract (pre ++ java_fence ++ body ++ fence ++ tl) = Return (strip body).
Proof.
  intros Hpre Hbody H1 H2. rewrite extract_eq.
  assert (F : find java_fence (pre ++ java_fence ++ body ++ fence ++ tl)
              = Some (length pre))
    by (rewrite app_assoc; apply find_app_l, Hpre).
  rewrite F.
  assert (R : skipn (length pre + length java_fence)
                (pre ++ java_fence ++ body ++ fence ++ tl)
              = body ++ fence ++ tl).
  { rewrite app_assoc, skipn_app, <- length_app, skipn_all, Nat.sub_diag.
    reflexivity. }
  rewrite R.
  assert (Fq : find fence (body ++ fence ++ tl) = Some (length body))
    by (rewrite app_assoc; apply find_app_l, Hbody).
  rewrite (pieces_up_to_fence _ _ Fq).
  - rewrite firstn_length_app. reflexivity.
  - rewrite skipn_app, skipn_all2 by lia.
    replace (length body + 1 - length body) with 1 by lia. exact H1.
  - rewrite skipn_app, skipn_all2 by lia.
    replace (length body + 2 - length body) with 2 by lia. exact H2.
Qed.

(** X4.  The prompt wraps the source in a code block the extractor reads
    back: for a source without a fence, extracting from the prompt gives
    the source, trimmed. *)
Theorem extract_reads_the_prompt_back (java_code : pystr) :
  contains fence java_code = false ->
  extract (create_prompt java_code) = Return (strip java_code).
Proof.
  intros H. unfold contains in H.
  destruct (find fence java_code) eqn:F; [discriminate|].
  destruct prompt_head_ends_with_marker as (pre & Ehead & Hpre).
  destruct prompt_tail_opens_with_fence as (tl & Etail & H1 & H2).
  unfold create_prompt. rewrite Ehead, Etail.
  replace ((pre ++ java_fence ++ nl) ++ java_code ++ nl ++ fence ++ tl)
    with (pre ++ java_fence ++ (nl ++ java_code ++ nl) ++ fence ++ tl)
    by (rewrite <- !app_assoc; reflexivity).
  rewrite (extract_first_block pre (nl ++ java_code ++ nl) tl Hpre
             (fence_after_line _ F) H1 H2).
  rewrite strip_line. reflexivity.
Qed.

Lemma extract_reads_the_prompt_back_witness :
  extract (create_prompt (str "class Foo {}")) = Return (str "class Foo {}").
Proof.
  exact (extract_reads_the_prompt_back (str "class Foo {}") eq_refl).
Defined.

(** ** Starting a generation *)

Section Starting.

Variable str_of_exn : pyexn -> pystr.

(** The four refusals of [generate_tests] and the silent one, in the
    order of the checks. *)
Lemma generate_tests_rejects (fs : filesystem) (pending : list idle_event) (a : app) :
  let file_path := strip (path_entry (ui a)) in
  (truthy file_path = false ->
   generate_tests str_of_exn fs pending a
   = (Return tt, error_box (str "Please provide a valid file path") a))
  /\ (truthy file_path = true -> path_exists fs file_path = false ->
      generate_tests str_of_exn fs pending a
      = (Return tt, error_box (str "File not found: " ++ file_path) a))
  /\ (truthy file_path = true -> path_exists fs file_path = true ->
      endswith file_path (str ".java") = false ->
      generate_tests str_of_exn fs pending a
      = (Return tt, error_box (str "The file must be a Java file (.java)") a))
  /\ (forall e, truthy file_path = true -> path_exists fs file_path = true ->
      endswith file_path (str ".java") = true ->
      read_text fs file_path = Raise e ->
      generate_tests str_of_exn fs pending a
      = (Return tt, error_box (str "Failed to read file: " ++ str_of_exn e) a))
  /\ (truthy file_path = true -> path_exists fs file_path = true ->
      endswith file_path (str ".java") = true ->
      read_text fs file_path = Return [] ->
      generate_tests str_of_exn fs pending a = (Return tt, a)).
Proof.
  intros file_path.
  unfold generate_tests, read_java_file, try_except, bind, gets, lift, ret.
  fold file_path. repeat apply conj.
  - intros ->. reflexivity.
  - intros -> ->. reflexivity.
  - intros -> -> ->. reflexivity.
  - intros e -> -> -> ->. reflexivity.
  - intros -> -> -> ->. reflexivity.
Qed.

(** X5.  With Generate enabled, a press that fails a check shows one
    error box and changes nothing else: for an empty path, a path that
    does not exist (whatever its ending), a path not ending in [.java],
    and a file that cannot be read; the texts name the trimmed path and
    the exception. *)
Theorem rejected_start_shows_one_box
    (fs : filesystem) (pending : list idle_event) (a : app) :
  generate_button (ui a) = NORMAL ->
  let file_path := strip (path_entry (ui a)) in
  let a1 := step str_of_exn a (PressGenerate fs pending) in
  (truthy file_path = false ->
   a1 = error_box (str "Please provide a valid file path") a)
  /\ (truthy file_path = true -> path_exists fs file_path = false ->
      a1 = error_box (str "File not found: " ++ file_path) a)
  /\ (truthy file_path = true -> path_exists fs file_path = true ->
      endswith file_path (str ".java") = false ->
      a1 = error_box (str "The file must be a Java file (.java)") a)
  /\ (forall e, truthy file_path = true -> path_exists fs file_path = true ->
      endswith file_path (str ".java") = true ->
      read_text fs file_path = Raise e ->
      a1 = error_box (str "Failed to read file: " ++ str_of_exn e) a).
Proof.
  intros G file_path a1. subst a1. unfold step. rewrite G. cbn [press].
  unfold exec.
  destruct (generate_tests_rejects fs pending a) as (H1 & H2 & H3 & H4 & _).
  fold file_path in H1, H2, H3, H4. repeat apply conj.
  - intros K. rewrite (H1 K). reflexivity.
  - intros K1 K2. rewrite (H2 K1 K2). reflexivity.
  - intros K1 K2 K3. rewrite (H3 K1 K2 K3). reflexivity.
  - intros e K1 K2 K3 K4. rewrite (H4 e K1 K2 K3 K4). reflexivity.
Qed.

(** X6.  A press of Generate on a file that reads as the empty string does
    nothing at all, in any state: no worker, no error box, no change of
    any widget. *)
Theorem empty_file_is_ignored
    (fs : filesystem) (pending : list idle_event) (a : app) :
  let file_path := strip (path_entry (ui a)) in
  truthy file_path = true -> path_exists fs file_path = true ->
  endswith file_path (str ".java") = true ->
  read_text fs file_path = Return [] ->
  step str_of_exn a (PressGenerate fs pending) = a.
Proof.
  intros file_path K1 K2 K3 K4. unfold step.
  destruct (generate_button (ui a)); cbn [press]; [|reflexivity].
  unfold exec.
  destruct (generate_tests_rejects fs pending a) as (_ & _ & _ & _ & H5).
  rewrite (H5 K1 K2 K3 K4). reflexivity.
Qed.

(** X7.  In a state the program reaches, a press of Generate dispatches a
    worker exactly when the dispatcher is idle and the path in the entry,
    trimmed, is not empty, exists, ends in [.java] and reads as a
    non-empty text; the worker then gets that text and the trimmed path,
    and is the only thread. *)
Theorem start_is_accepted_iff
    (key : pystr) (es : list event) (fs : filesystem) (pending : list idle_event) :
  let a := run str_of_exn (initial key) es in
  let file_path := strip (path_entry (ui a)) in
  let a1 := step str_of_exn a (PressGenerate fs pending) in
  (threads a1 <> threads a <->
   dispatcher a = Idle /\ truthy file_path = true
   /\ path_exists fs file_path = true
   /\ endswith file_path (str ".java") = true
   /\ exists java_code,
       read_text fs file_path = Return java_code /\ truthy java_code = true)
  /\ (forall java_code, read_text fs file_path = Return java_code ->
      threads a1 <> threads a -> threads a1 = [(java_code, file_path)]).
Proof.
  intros a file_path a1.
  assert (Inv : invariant a) by (apply run_invariant, initial_invariant).
  assert (Acc : forall java_code,
             generate_button (ui a) = NORMAL -> truthy file_path = true ->
             path_exists fs file_path = true ->
             endswith file_path (str ".java") = true ->
             read_text fs file_path = Return java_code ->
             truthy java_code = true ->
             threads a1 = [(java_code, file_path)] /\ threads a = []).
  { intros java_code G K1 K2 K3 K4 K5. subst a1. unfold step. rewrite G.
    cbn [press]. unfold exec.
    rewrite (generate_tests_accepts str_of_exn fs pending a java_code K1 K2 K3 K4 K5).
    unfold invariant in Inv. rewrite G in Inv.
    destruct (in_flight_quiet a Inv) as [Hq Ht].
    destruct (start_from_rest pending (java_code, file_path) a Hq Ht)
      as (a' & E & K & _).
    fold file_path. rewrite E. split; [exact K|exact Ht]. }
  assert (Rej : threads a1 <> threads a ->
             dispatcher a = Idle /\ truthy file_path = true
             /\ path_exists fs file_path = true
             /\ endswith file_path (str ".java") = true
             /\ exists java_code,
                 read_text fs file_path = Return java_code
                 /\ truthy java_code = true).
  { intros Hspawn. unfold dispatcher.
    destruct (generate_button (ui a)) eqn:G.
    2:{ exfalso. apply Hspawn. subst a1. unfold step. rewrite G. reflexivity. }
    destruct (generate_tests_rejects fs pending a) as (H1 & H2 & H3 & H4 & H5).
    fold file_path in H1, H2, H3, H4, H5.
    assert (Hstep : a1 = exec (generate_tests str_of_exn fs pending) a)
      by (subst a1; unfold step; rewrite G; reflexivity).
    unfold exec in Hstep.
    destruct (truthy file_path) eqn:K1;
      [|exfalso; apply Hspawn; rewrite Hstep, (H1 eq_refl); reflexivity].
    destruct (path_exists fs file_path) eqn:K2;
      [|exfalso; apply Hspawn; rewrite Hstep, (H2 eq_refl eq_refl); reflexivity].
    destruct (endswith file_path (str ".java")) eqn:K3;
      [|exfalso; apply Hspawn; rewrite Hstep, (H3 eq_refl eq_refl eq_refl);
        reflexivity].
    destruct (read_text fs file_path) as [java_code|e] eqn:K4;
      [|exfalso; apply Hspawn;
        rewrite Hstep, (H4 e eq_refl eq_refl eq_refl eq_refl); reflexivity].
    destruct java_code as [|c java_code];
      [exfalso; apply Hspawn;
       rewrite Hstep, (H5 eq_refl eq_refl eq_refl eq_refl); reflexivity|].
    repeat split. exists (c :: java_code). split; reflexivity. }
  split; [split|].
  - exact Rej.
  - intros (Hidle & K1 & K2 & K3 & java_code & K4 & K5).
    assert (G : generate_button (ui a) = NORMAL).
    { unfold dispatcher in Hidle. destruct (generate_button (ui a));
        [reflexivity|discriminate]. }
    destruct (Acc java_code G K1 K2 K3 K4 K5) as [E1 E2].
    rewrite E1, E2. discriminate.
  - intros java_code K4 Hspawn.
    destruct (Rej Hspawn) as (Hidle & K1 & K2 & K3 & code & K4' & K5).
    assert (G : generate_button (ui a) = NORMAL).
    { unfold dispatcher in Hidle. destruct (generate_button (ui a));
        [reflexivity|discriminate]. }
    rewrite K4 in K4'. injection K4' as <-.
    apply (Acc java_code G K1 K2 K3 K4 K5).
Qed.

End Starting.

(** ** More on the worker *)

Section WorkerFrame.

Variable str_of_exn : pyexn -> pystr.

(** X8.  The worker thread touches no widget: it leaves the widgets, the
    threads, the clipboard, the error boxes and the key as they are, and
    adds one request and one queued callback.  The file path it is given
    has no influence on what it does. *)
Theorem worker_touches_no_widget
    (net : network) (java_code file_path : pystr) (a : app) :
  let a' := exec (call_openai_api str_of_exn net java_code file_path) a in
  ui a' = ui a /\ threads a' = threads a /\ clipboard a' = clipboard a
  /\ dialogs a' = dialogs a /\ api_key a' = api_key a
  /\ length (after_queue a') = S (length (after_queue a))
  /\ length (posted a') = S (length (posted a))
  /\ forall other_path,
      call_openai_api str_of_exn net java_code other_path a
      = call_openai_api str_of_exn net java_code file_path a.
Proof.
  unfold exec. rewrite call_openai_api_eq. cbn.
  repeat apply conj; try reflexivity.
  - rewrite length_app. simpl. lia.
  - rewrite length_app. simpl. lia.
  - intros other_path. rewrite call_openai_api_eq. reflexivity.
Qed.

Lemma after_worker_callback (a : app) (java_code : pystr) (cb cb' : callback) :
  after_worker a java_code cb = after_worker a java_code cb' -> cb = cb'.
Proof.
  intros H. apply (f_equal after_queue) in H. cbn in H.
  apply app_inv_head in H. injection H as ->. reflexivity.
Qed.

Lemma extract_value_str (content : pyvalue) (t : pystr) :
  extract_value content = Return t ->
  exists s, content = PyStr s /\ extract s = Return t.
Proof.
  destruct content; try discriminate. intros H. exists s. split; [reflexivity|exact H].
Qed.

(** When [delivery_for] is a success. *)
Lemma delivery_for_success (o : result response) (t : pystr) :
  delivery_for str_of_exn o = update_ui_with_result_cb t <->
  exists r v s, o = Return r /\ status_code r = 200%Z /\ json r = Return v
                /\ first_choice_content v = Return (PyStr s)
                /\ extract s = Return t.
Proof.
  unfold delivery_for. split.
  - destruct o as [r|e]; [|discriminate].
    destruct (status_code r =? 200)%Z eqn:St; [|discriminate].
    destruct (json r) as [v|e] eqn:J; [|discriminate].
    destruct (first_choice_content v) as [c|e] eqn:C; [|discriminate].
    destruct (extract_value c) as [t'|e] eqn:X; [|discriminate].
    intros H. injection H as ->.
    destruct (extract_value_str _ _ X) as (s & -> & Hs).
    exists r, v, s. apply Z.eqb_eq in St. repeat split; assumption.
  - intros (r & v & s & -> & St & J & C & X).
    apply Z.eqb_eq in St. rewrite St, J, C. cbn [extract_value]. rewrite X.
    reflexivity.
Qed.

(** X9.  The worker delivers a success exactly when the exchange returns
    status 200, the body parses, [choices[0].message.content] is there
    and is a string; the text delivered is what [extract] makes of that
    string.  Further choices and other fields play no part. *)
Theorem success_is_delivered_iff
    (net : network) (java_code file_path : pystr) (a : app) (t : pystr) :
  call_openai_api str_of_exn net java_code file_path a
  = (Return tt, after_worker a java_code (update_ui_with_result_cb t))
  <->
  exists r v s,
    net (request_for (api_key a) java_code) = Return r
    /\ status_code r = 200%Z /\ json r = Return v
    /\ first_choice_content v = Return (PyStr s)
    /\ extract s = Return t.
Proof.
  rewrite call_openai_api_eq. rewrite <- delivery_for_success. split.
  - intros H. apply (f_equal snd) in H. cbn [snd] in H.
    apply after_worker_callback in H. exact H.
  - intros ->. reflexivity.
Qed.

End WorkerFrame.

Lemma success_is_delivered_iff_witness :
  let a := initial (str "sk-test") in
  call_openai_api plain_str_of_exn
    (answering (chat_response (str "```java @Test void t(){} ```")))
    (str "class Foo {}") (str "Foo.java") a
  = (Return tt,
     after_worker a (str "class Foo {}")
       (update_ui_with_result_cb (str "@Test void t(){}"))).
Proof.
  intros a.
  apply (proj2 (success_is_delivered_iff plain_str_of_exn
                  (answering (chat_response (str "```java @Test void t(){} ```")))
                  (str "class Foo {}") (str "Foo.java") a
                  (str "@Test void t(){}"))).
  exists (chat_response (str "```java @Test void t(){} ```")).
  eexists. exists (str "```java @Test void t(){} ```").
  repeat split; reflexivity.
Defined.

(** ** Whole runs *)

Lemma in_remove_nth {A : Type} (i : nat) (l : list A) (x : A) :
  In x (remove_nth i l) -> In x l.
Proof.
  revert i; induction l as [|y l IH]; intros [|i] H; simpl in *; auto.
  destruct H as [->|H]; [left; reflexivity|right; apply (IH i H)].
Qed.

Section Runs.

Variable str_of_exn : pyexn -> pystr.

(** A queued callback changes widgets and the queue only. *)
Lemma fire_frame (i : nat) (a : app) :
  exists a', fire i a = (Return tt, a')
             /\ api_key a' = api_key a /\ posted a' = posted a
             /\ threads a' = threads a /\ clipboard a' = clipboard a
             /\ dialogs a' = dialogs a.
Proof.
  unfold fire. destruct (nth_error (after_queue a) i) as [cb|].
  - destruct cb; eexists; (split; [reflexivity|]); repeat split.
  - exists a. repeat split.
Qed.

Lemma root_update_frame (pending : list idle_event) (a : app) :
  exists a', root_update pending a = (Return tt, a')
             /\ api_key a' = api_key a /\ posted a' = posted a
             /\ threads a' = threads a /\ dialogs a' = dialogs a.
Proof.
  revert a; induction pending as [|[i|path|edit|first count] rest IH]; intros a.
  - exists a. repeat split.
  - destruct (fire_frame i a) as (a1 & E1 & H1 & H2 & H3 & _ & H5).
    destruct (IH a1) as (a2 & E2 & K1 & K2 & K3 & K5).
    exists a2. cbn [root_update]. unfold bind. rewrite E1, E2.
    repeat split; congruence.
  - destruct (IH (with_ui (set_path_entry path) a))
      as (a2 & E2 & K1 & K2 & K3 & K5).
    exists a2. cbn [root_update]. unfold bind, config, modify. rewrite E2.
    repeat split; assumption.
  - destruct (IH (exec (edit_output edit) a)) as (a2 & E2 & K1 & K2 & K3 & K5).
    exists a2. cbn [root_update].
    unfold bind, edit_output, config, modify, exec in *. cbn [snd] in *.
    rewrite E2. repeat split; assumption.
  - destruct (copy_selection_cases first count a)
      as (a1 & E1 & _ & H2 & _ & H4 & H5 & H6).
    destruct (IH a1) as (a2 & E2 & K1 & K2 & K3 & K5).
    exists a2. cbn [root_update]. unfold bind. rewrite E1, E2.
    repeat split; congruence.
Qed.

(** [generate_tests] sends nothing and leaves the key alone; it adds at
    most one thread, for a non-empty source, and at most one error box. *)
Lemma generate_tests_frame (fs : filesystem) (pending : list idle_event) (a : app) :
  exists a', generate_tests str_of_exn fs pending a = (Return tt, a')
    /\ api_key a' = api_key a /\ posted a' = posted a
    /\ (threads a' = threads a
        \/ exists java_code file_path,
            truthy java_code = true
            /\ threads a' = threads a ++ [(java_code, file_path)])
    /\ length (dialogs a') <= S (length (dialogs a)).
Proof.
  destruct (generate_tests_rejects str_of_exn fs pending a)
    as (R1 & R2 & R3 & R4 & R5).
  pose proof (generate_tests_accepts str_of_exn fs pending a) as Acc.
  cbv zeta in R1, R2, R3, R4, R5, Acc.
  assert (Box : forall msg, length (dialogs (error_box msg a))
                            <= S (length (dialogs a))).
  { intros msg. cbn. rewrite length_app. simpl. lia. }
  destruct (truthy (strip (path_entry (ui a)))) eqn:K1;
    [|eexists; split; [apply R1; reflexivity|repeat split; auto]].
  destruct (path_exists fs (strip (path_entry (ui a)))) eqn:K2;
    [|eexists; split; [apply R2; reflexivity|repeat split; auto]].
  destruct (endswith (strip (path_entry (ui a))) (str ".java")) eqn:K3;
    [|eexists; split; [apply R3; reflexivity|repeat split; auto]].
  destruct (read_text fs (strip (path_entry (ui a)))) as [code|e] eqn:K4;
    [|eexists; split; [apply (R4 e); reflexivity|repeat split; auto]].
  destruct code as [|c code];
    [exists a; split; [apply R5; reflexivity|repeat split; auto]|].
  rewrite (Acc (c :: code) eq_refl eq_refl eq_refl eq_refl eq_refl).
  destruct (root_update_frame pending (started a))
    as (a1 & E1 & H1 & H2 & H3 & H5).
  unfold bind. rewrite E1. eexists. split; [reflexivity|].
  cbn. repeat split; try assumption.
  - right. exists (c :: code), (strip (path_entry (ui a))).
    split; [reflexivity|]. rewrite H3. reflexivity.
  - rewrite H5. cbn. lia.
Qed.

(** Every event keeps the key and the make of requests and threads. *)
Lemma step_well_keyed (key : pystr) (a : app) (e : event) :
  well_keyed key a -> well_keyed key (step str_of_exn a e).
Proof.
  intros (Hk & Hp & Ht).
  destruct e as [path|fs pending| |i net|i|edit|first count]; unfold step.
  - repeat split; assumption.
  - destruct (generate_button (ui a)); cbn [press];
      [|repeat split; assumption].
    destruct (generate_tests_frame fs pending a)
      as (a' & E & K1 & K2 & K3 & _).
    unfold exec. rewrite E. cbn [snd]. unfold well_keyed.
    rewrite K1, K2. split; [exact Hk|]. split; [exact Hp|].
    intros java_code file_path Hin.
    destruct K3 as [K3|(code & p & T & K3)]; rewrite K3 in Hin.
    + apply (Ht _ _ Hin).
    + apply in_app_or in Hin. destruct Hin as [Hin|[Hin|[]]].
      * apply (Ht _ _ Hin).
      * injection Hin as <- <-. exact T.
  - destruct (copy_button (ui a)); cbn [press]; repeat split; assumption.
  - destruct (nth_error (threads a) i) as [[java_code file_path]|] eqn:E;
      [|repeat split; assumption].
    unfold exec. rewrite call_openai_api_eq. cbn [snd]. unfold well_keyed. cbn.
    split; [exact Hk|]. split.
    + intros req Hin. apply in_app_or in Hin. destruct Hin as [Hin|[<-|[]]].
      * apply (Hp _ Hin).
      * exists java_code. rewrite Hk. split; [|reflexivity].
        apply (Ht java_code file_path). apply (nth_error_In _ _ E).
    + intros c p Hin. apply (Ht c p). apply (in_remove_nth _ _ _ Hin).
  - destruct (fire_frame i a) as (a' & E & K1 & K2 & K3 & _).
    unfold exec. rewrite E. cbn [snd]. unfold well_keyed.
    rewrite K1, K2, K3. repeat split; assumption.
  - repeat split; assumption.
  - destruct (copy_selection_cases first count a)
      as (a' & E & _ & K2 & _ & K4 & K5 & _).
    unfold exec. rewrite E. cbn [snd]. unfold well_keyed.
    rewrite K2, K4, K5. repeat split; assumption.
Qed.

Lemma run_well_keyed (key : pystr) (es : list event) (a : app) :
  well_keyed key a -> well_keyed key (run str_of_exn a es).
Proof.
  revert a; induction es as [|e es IH]; intros a H; [exact H|].
  apply IH, step_well_keyed, H.
Qed.

End Runs.

Section Guarantees.

Variable str_of_exn : pyexn -> pystr.

(** X10.  Startup succeeds exactly when the environment gives a non-empty
    key (a missing or an empty one ends the program with status 1).  From
    then on the key never changes, and every request ever sent goes to
    the chat-completions address, bears that key as its bearer token and
    carries the prompt of a non-empty source text. *)
Theorem key_is_fixed_and_sent (getenv : option pystr) (a0 : app) :
  (init getenv = Started a0 <->
   exists key, getenv = Some key /\ truthy key = true /\ a0 = initial key)
  /\ (forall box status, init getenv = Exited box status ->
      status = 1%Z /\ (getenv = None \/ getenv = Some []))
  /\ (init getenv = Started a0 ->
      forall es,
        let a := run str_of_exn a0 es in
        getenv = Some (api_key a)
        /\ forall req, In req (posted a) ->
             url req = chat_completions_url
             /\ headers req
                = [ (str "Content-Type", str "application/json");
                    (str "Authorization", str "Bearer " ++ api_key a) ]
             /\ exists java_code,
                 truthy java_code = true
                 /\ data req = payload_of (create_prompt java_code)).
Proof.
  assert (S : init getenv = Started a0 ->
              exists key, getenv = Some key /\ truthy key = true
                          /\ a0 = initial key).
  { unfold init. destruct getenv as [key|]; [|discriminate].
    destruct (truthy key) eqn:T; [|discriminate].
    intros H. injection H as <-. exists key. repeat split. exact T. }
  split; [split; [exact S|]|split].
  - intros (key & -> & T & ->). unfold init. rewrite T. reflexivity.
  - unfold init. intros box status.
    destruct getenv as [[|c key]|]; cbn [truthy]; try discriminate;
      intros H; injection H as _ <-; auto.
  - intros H es a. destruct (S H) as (key & -> & T & ->).
    assert (W : well_keyed key a).
    { apply run_well_keyed.
      split; [reflexivity|split; [intros req []|intros c p []]]. }
    destruct W as (Hk & Hp & _). rewrite Hk. split; [reflexivity|].
    intros req Hin. destruct (Hp req Hin) as (code & Tc & ->).
    repeat split. exists code. split; [exact Tc|reflexivity].
Qed.

Lemma step_counts (a : app) (e : event) :
  let a' := step str_of_exn a e in
  let pressed := if is_press_generate e then 1 else 0 in
  length (posted a') + length (threads a')
  <= length (posted a) + length (threads a) + pressed
  /\ length (dialogs a') <= length (dialogs a) + pressed.
Proof.
  destruct e as [path|fs pending| |i net|i|edit|first count]; unfold step;
    cbn [is_press_generate].
  - cbn. lia.
  - destruct (generate_button (ui a)); cbn [press]; [|cbn; lia].
    destruct (generate_tests_frame str_of_exn fs pending a)
      as (a' & E & _ & K2 & K3 & K4).
    unfold exec. rewrite E. cbn [snd]. rewrite K2.
    destruct K3 as [->|(c & p & _ & ->)]; [lia|].
    rewrite length_app. simpl. lia.
  - destruct (copy_button (ui a)); cbn; lia.
  - destruct (nth_error (threads a) i) as [[java_code file_path]|] eqn:E;
      [|lia].
    unfold exec. rewrite call_openai_api_eq. cbn.
    rewrite length_app, (length_remove_nth _ _ _ E). simpl. lia.
  - destruct (fire_frame i a) as (a' & E & _ & K2 & K3 & _ & K5).
    unfold exec. rewrite E. cbn [snd]. rewrite K2, K3, K5. lia.
  - cbn. lia.
  - destruct (copy_selection_cases first count a)
      as (a' & E & _ & K2 & _ & K4 & _ & K6).
    unfold exec. rewrite E. cbn [snd]. rewrite K2, K4, K6. lia.
Qed.

Lemma run_counts (es : list event) (a : app) :
  let a' := run str_of_exn a es in
  let presses := length (filter is_press_generate es) in
  length (posted a') + length (threads a')
  <= length (posted a) + length (threads a) + presses
  /\ length (dialogs a') <= length (dialogs a) + presses.
Proof.
  revert a; induction es as [|e es IH]; intros a; [cbn; lia|].
  cbn [run fold_left filter].
  pose proof (step_counts a e) as (H1 & H2).
  pose proof (IH (step str_of_exn a e)) as (K1 & K2). cbv zeta in *.
  unfold run in *. destruct (is_press_generate e); simpl length; lia.
Qed.

(** X11.  No retries and no request without a press: in any run from
    startup, the requests sent and the workers still at work together
    number at most the presses of Generate, and so do the error boxes. *)
Theorem one_request_per_press (key : pystr) (es : list event) :
  let a := run str_of_exn (initial key) es in
  let presses := length (filter is_press_generate es) in
  length (posted a) + length (threads a) <= presses
  /\ length (dialogs a) <= presses.
Proof.
  intros a presses. pose proof (run_counts es (initial key)) as H.
  cbv zeta in H. exact H.
Qed.

End Guarantees.

(** ** Where the displayed and the copied text come from *)

Section Provenance.

Variable str_of_exn : pyexn -> pystr.











End Provenance.

(** ** The further properties on concrete inputs *)

Lemma rejected_start_shows_one_box_witness :
  let typed (p : pystr) := run plain_str_of_exn (initial (str "sk-test")) [TypePath p] in
  step plain_str_of_exn (typed (str "   ")) (PressGenerate foo_fs [])
  = error_box (str "Please provide a valid file path") (typed (str "   "))
  /\ step plain_str_of_exn (typed (str " Foo.txt ")) (PressGenerate bare_fs [])
     = error_box (str "File not found: Foo.txt") (typed (str " Foo.txt "))
  /\ step plain_str_of_exn (typed (str "Foo.JAVA")) (PressGenerate foo_fs [])
     = error_box (str "The file must be a Java file (.java)") (typed (str "Foo.JAVA"))
  /\ step plain_str_of_exn (typed (str "Foo.java")) (PressGenerate locked_fs [])
     = error_box (str "Failed to read file: Permission denied")
         (typed (str "Foo.java")).
Proof.
  intros typed. repeat apply conj.
  - exact (proj1 (rejected_start_shows_one_box plain_str_of_exn foo_fs []
                    (typed (str "   ")) eq_refl) eq_refl).
  - exact (proj1 (proj2 (rejected_start_shows_one_box plain_str_of_exn bare_fs []
                    (typed (str " Foo.txt ")) eq_refl)) eq_refl eq_refl).
  - exact (proj1 (proj2 (proj2 (rejected_start_shows_one_box plain_str_of_exn
                    foo_fs [] (typed (str "Foo.JAVA")) eq_refl)))
             eq_refl eq_refl eq_refl).
  - exact (proj2 (proj2 (proj2 (rejected_start_shows_one_box plain_str_of_exn
                    locked_fs [] (typed (str "Foo.java")) eq_refl)))
             (OSError (str "Permission denied")) eq_refl eq_refl eq_refl eq_refl).
Defined.

Lemma empty_file_is_ignored_witness :
  let a := run plain_str_of_exn (initial (str "sk-test")) [TypePath (str "Empty.java")] in
  step plain_str_of_exn a (PressGenerate empty_fs []) = a.
Proof.
  intros a.
  exact (empty_file_is_ignored plain_str_of_exn empty_fs [] a
           eq_refl eq_refl eq_refl eq_refl).
Defined.

Lemma start_is_accepted_iff_witness :
  let a := run plain_str_of_exn (initial (str "sk-test")) [TypePath (str "  Foo.java ")] in
  threads (step plain_str_of_exn a (PressGenerate foo_fs []))
  = [(str "class Foo {}", str "Foo.java")].
Proof.
  intros a.
  destruct (start_is_accepted_iff plain_str_of_exn (str "sk-test")
              [TypePath (str "  Foo.java ")] foo_fs []) as [Hiff Hargs].
  apply (Hargs (str "class Foo {}")); [reflexivity|].
  apply (proj2 Hiff). repeat split.
  exists (str "class Foo {}"). split; reflexivity.
Defined.

Lemma key_is_fixed_and_sent_witness :
  let a := run plain_str_of_exn (initial (str "sk-test"))
             (one_start ++ [WorkerRuns 0 unreachable_network]) in
  Some (str "sk-test") = Some (api_key a)
  /\ posted a = [request_for (str "sk-test") (str "class Foo {}")]
  /\ headers (request_for (str "sk-test") (str "class Foo {}"))
     = [ (str "Content-Type", str "application/json");
         (str "Authorization", str "Bearer sk-test") ].
Proof.
  intros a.
  destruct (key_is_fixed_and_sent plain_str_of_exn (Some (str "sk-test"))
              (initial (str "sk-test"))) as (_ & _ & H).
  destruct (H eq_refl (one_start ++ [WorkerRuns 0 unreachable_network]))
    as [Hkey Hreq].
  split; [exact Hkey|]. split; [reflexivity|].
  destruct (Hreq (request_for (str "sk-test") (str "class Foo {}")))
    as (_ & Hh & _).
  - left. reflexivity.
  - exact Hh.
Defined.

